(** * go-restapi-multitenant: the request pipeline of restService.go

    A shallow embedding of [restService.go]: the header check, the JWT gate
    ([authorize]), the transaction scope ([prepare]) and the five person
    handlers, followed by the properties of the specification.

    The Go code talks to three collaborators that are not part of the
    repository: the JWT library, GORM over PostgreSQL, and net/http.  Every
    call to the first two is an [Event] of a small free monad [Prog]; an
    environment ([Env]) answers the events.  Properties of the code alone
    are proved for every environment; properties of the stored data are
    proved for [backend], a transactional namespace store whose table
    engine and identifier reading are parameters ([Engine]). *)

From Stdlib Require Import ZArith Ascii String List Lia.
From stdpp Require Import base option list gmap strings.

Set Default Proof Using "Type".

(** ** Package [strings] and [strconv] *)

(** [HasPrefix s prefix]: [s] starts with [prefix]. *)
Fixpoint HasPrefix (s prefix : string) {struct prefix} : bool :=
  match prefix, s with
  | EmptyString, _ => true
  | String _ _, EmptyString => false
  | String p prefix', String c s' => Ascii.eqb c p && HasPrefix s' prefix'
  end.

(** [TrimPrefix s prefix] for a [prefix] that [s] starts with. *)
Fixpoint TrimPrefix (s prefix : string) {struct prefix} : string :=
  match prefix, s with
  | String _ prefix', String _ s' => TrimPrefix s' prefix'
  | _, _ => s
  end.

(** [Cut s sep] is [(s[:m], s[m+len(sep):])] for [m = strings.Index(s, sep)],
    the first occurrence of [sep] in [s], and [None] when [Index] is [-1]. *)
Fixpoint Cut (s sep : string) : option (string * string) :=
  if HasPrefix s sep then Some (EmptyString, TrimPrefix s sep)
  else
    match s with
    | EmptyString => None
    | String c s' =>
        match Cut s' sep with
        | Some (before, after) => Some (String c before, after)
        | None => None
        end
    end.

(** [strings.SplitN(s, sep, n)] for a non-empty [sep] and [n >= 0]: at most
    [n] pieces, the last one the unsplit remainder; [n = 0] gives no piece. *)
Fixpoint SplitN (s sep : string) (n : nat) : list string :=
  match n with
  | O => []
  | S O => [s]
  | S n' =>
      match Cut s sep with
      | None => [s]
      | Some (before, after) => before :: SplitN after sep n'
      end
  end.

(** Go errors.  [strconv] reports a [*NumError]; every other error is kept
    by its message. *)
Inductive error : Type :=
| errorString (msg : string)
| NumError (Func Num : string) (Err : error).

Definition ErrSyntax : error := errorString "invalid syntax".
Definition ErrRange : error := errorString "value out of range".

Definition isDigit (c : ascii) : bool :=
  (48 <=? nat_of_ascii c)%nat && (nat_of_ascii c <=? 57)%nat.

(** The value of a run of decimal digits, most significant first; [None]
    when a byte is not a digit. *)
Fixpoint digits (acc : Z) (s : string) : option Z :=
  match s with
  | EmptyString => Some acc
  | String c s' =>
      if isDigit c
      then digits (10 * acc + (Z.of_nat (nat_of_ascii c) - 48)) s'
      else None
  end.

(** [strconv.Atoi] on a 64-bit platform: an optional sign, then one or more
    decimal digits; a value that does not fit [int] is clamped and reported
    with [ErrRange]. *)
Definition Atoi (s : string) : Z * option error :=
  let syntax := (0%Z, Some (NumError "Atoi" s ErrSyntax)) in
  match s with
  | EmptyString => syntax
  | String c rest =>
      let neg := Ascii.eqb c "-" in
      let body := if neg || Ascii.eqb c "+" then rest else s in
      match body with
      | EmptyString => syntax
      | _ =>
          match digits 0 body with
          | None => syntax
          | Some un =>
              if neg then
                if (2 ^ 63 <? un)%Z
                then ((- 2 ^ 63)%Z, Some (NumError "Atoi" s ErrRange))
                else ((- un)%Z, None)
              else
                if (2 ^ 63 <=? un)%Z
                then ((2 ^ 63 - 1)%Z, Some (NumError "Atoi" s ErrRange))
                else (un, None)
          end
      end
  end.

(** ** restService.go: the header check *)

(** The JWT key. *)
Definition jwtKey : string := "c0e18b6a-a204-4197-93f4-c11f6cd5bad8".

(** Validates if the Authorization header is present and has a valid value:
    it must be in the format [Bearer <jwtToken>]. *)
Definition isValidAuthorizationHeader (authorizationHeader : string) : bool :=
  if String.eqb authorizationHeader "" then false
  else
    let auth := SplitN authorizationHeader " " 2 in
    if Nat.eqb (length auth) 2
    then String.eqb (nth 0 auth "") "Bearer" && negb (String.eqb (nth 1 auth "") "")
    else false.

(** ** Data model *)

(** Person defines the basic struct of a person. *)
Record Person : Type := mkPerson { ID : Z; Name : string }.

Definition zeroPerson : Person := {| ID := 0; Name := "" |}.

(** [person.ID = id] *)
Definition set_ID (person : Person) (id : Z) : Person :=
  {| ID := id; Name := Name person |}.

(** ServiceClaims defines the claims that should be received by the JWT
    token (the standard claims play no part in the code). *)
Record ServiceClaims : Type := mkClaims { UserName : string; Tenant : string }.

(** [*jwt.Token], as far as [authorize] reads it. *)
Record Token : Type := mkToken { Claims : ServiceClaims; Valid : bool }.

(** ** net/http *)

(** What has been written to the client.  [json.Encoder.Encode] output is
    kept as the encoded value. *)
Inductive Written : Type :=
| Text (line : string)
| JSONPerson (person : Person)
| JSONPeople (people : list Person).

(** [http.ResponseWriter]: the header map, the status line once written,
    the body so far, and [fault], the error every [Write] on this connection
    returns ([None] while the client can be written to). *)
Record ResponseWriter : Type := mkWriter {
  Header : gmap string (list string);
  status : option Z;
  body : list Written;
  fault : option error
}.

Definition Header_Add (w : ResponseWriter) (key value : string) : ResponseWriter :=
  {| Header := <[key := default [] (Header w !! key) ++ [value]]> (Header w);
     status := status w; body := body w; fault := fault w |}.

Definition Header_Set (w : ResponseWriter) (key value : string) : ResponseWriter :=
  {| Header := <[key := [value]]> (Header w);
     status := status w; body := body w; fault := fault w |}.

(** [w.WriteHeader(code)]; only the first call sets the status. *)
Definition WriteHeader (w : ResponseWriter) (code : Z) : ResponseWriter :=
  {| Header := Header w;
     status := Some (default code (status w));
     body := body w; fault := fault w |}.

(** [w.Write(data)]: sends the status line [200] when none was sent, then
    the data. *)
Definition Write (w : ResponseWriter) (data : Written) : ResponseWriter * option error :=
  let w := WriteHeader w 200 in
  match fault w with
  | Some e => (w, Some e)
  | None =>
      ({| Header := Header w; status := status w;
          body := body w ++ [data]; fault := fault w |}, None)
  end.

(** [http.Error(w, error, code)] *)
Definition http_Error (w : ResponseWriter) (msg : string) (code : Z) : ResponseWriter :=
  let w := Header_Set w "Content-Type" "text/plain; charset=utf-8" in
  let w := Header_Set w "X-Content-Type-Options" "nosniff" in
  let w := WriteHeader w code in
  fst (Write w (Text msg)).

(** The status the client receives: net/http sends [200] when the handler
    returns without having written one. *)
Definition sent_status (w : ResponseWriter) : Z := default 200%Z (status w).

(** [*http.Request]: its headers, the route variables [mux.Vars(r)] and the
    body. *)
Record Request : Type := mkRequest {
  ReqHeader : gmap string (list string);
  Vars : gmap string string;
  Body : string
}.

(** [r.Header.Get(key)]: the first value of the header, [""] when absent. *)
Definition Header_Get (r : Request) (key : string) : string :=
  match ReqHeader r !! key with
  | Some (v :: _) => v
  | _ => ""
  end.

(** [params[key]] on a Go map: the zero value when the key is absent. *)
Definition param (r : Request) (key : string) : string :=
  default "" (Vars r !! key).

(** ** The calls that leave the process *)

(** One constructor per call site kind of restService.go: the JWT parse and
    the GORM calls on the pool ([Begin]) and on the transaction handle. *)
Inductive Event : Type :=
| ParseWithClaims (tokenString key : string)
| Begin
| Exec (sql : string)
| AutoMigrate
| Find
| WhereFind (id : Z)
| Create (person : Person)
| Delete (person : Person)
| Save (person : Person)
| Commit
| Rollback.

(** What a call hands back.  GORM calls return the handle with its [Error]
    field, which restService.go never reads; queries also fill their
    destination. *)
Definition reply (e : Event) : Type :=
  match e with
  | ParseWithClaims _ _ => (Token * option string)%type
  | Find => (list Person * option error)%type
  | WhereFind _ => (option Person * option error)%type
  | _ => option error
  end.

(** Programs over these calls. *)
Inductive Prog (A : Type) : Type :=
| Ret (a : A)
| Call (e : Event) (k : reply e -> Prog A).

Arguments Ret {A} a.
Arguments Call {A} e k.

Fixpoint bind {A B : Type} (p : Prog A) (f : A -> Prog B) : Prog B :=
  match p with
  | Ret a => f a
  | Call e k => Call e (fun r => bind (k r) f)
  end.

Definition call (e : Event) : Prog (reply e) := Call e Ret.

#[global] Instance Prog_ret : MRet Prog := @Ret.
#[global] Instance Prog_bind : MBind Prog := fun A B f p => bind p f.

(** A logged call with its reply. *)
Inductive Entry : Type := entry (e : Event) (r : reply e).

Definition event_of (x : Entry) : Event := let 'entry e _ := x in e.

(** An environment answers the calls from its own state. *)
Record Env : Type := mkEnv {
  St : Type;
  step : forall e : Event, St -> St * reply e
}.

Fixpoint run (env : Env) {A : Type} (p : Prog A) (s : St env) : A * St env * list Entry :=
  match p with
  | Ret a => (a, s, [])
  | Call e k =>
      let '(s1, r) := step env e s in
      let '(a, s2, log) := run env (k r) s1 in
      (a, s2, entry e r :: log)
  end.

(** ** restService.go: the pipeline *)

(** Defines the handler signature.  The [db] argument is the open
    transaction, the receiver of the GORM events of the program. *)
Definition handler : Type := ResponseWriter -> Request -> Prog (ResponseWriter * option error).

(** [json.NewEncoder(w).Encode(v)]: the value goes out through [w.Write]. *)
Definition Encode (w : ResponseWriter) (v : Written) : ResponseWriter * option error :=
  Write w v.


(** The provisioning statements of [prepare], in the open transaction:
    creates the schema for the tenant if not exists, modifies the search
    path in order to use a different schema per tenant, and migrates the
    database. *)
Definition provision (tenant : string) : Prog unit :=
  call (Exec ("create schema if not exists " +:+ tenant));;
  call (Exec ("set search_path to " +:+ tenant));;
  call AutoMigrate;;
  mret tt.

(** If any error is found the transaction will be rolled back, otherwise
    commits. *)
Definition finish (err : option error) : Prog (option error) :=
  match err with
  | None => call Commit
  | Some _ => call Rollback
  end.

(** Prepares the execution of the serviceHandler by setting the schema for
    the tenant and migrating the database if necessary.  (The log line is
    left out.)

    The error of [dbPool.Begin()] is not read.  When [Begin] fails, the
    handle it returns holds no transaction: the two [Exec] calls return
    without reaching the database, and [db.AutoMigrate] panics on the nil
    transaction.  [prepare] then never returns: the handler is not run,
    neither [Commit] nor [Rollback] is called and nothing is written; the
    result is [None]. *)
Definition prepare (serviceHandler : handler) (w : ResponseWriter) (r : Request)
    (tenant : string) : Prog (option ResponseWriter) :=
  began ← call Begin;
  match began with
  | None =>
      provision tenant;;
      '(w, err) ← serviceHandler w r;
      finish err;;
      mret (Some w)
  | Some _ =>
      call (Exec ("create schema if not exists " +:+ tenant));;
      call (Exec ("set search_path to " +:+ tenant));;
      mret None
  end.

(** Checks if the JWT is informed and valid, then prepares the handler
    execution.  The result is the writer as the request leaves it, or
    [None] when [prepare] panicked and no response is sent. *)
Definition authorize (serviceHandler : handler) (w : ResponseWriter) (r : Request)
    : Prog (option ResponseWriter) :=
  let authorizationHeader := Header_Get r "Authorization" in
  if isValidAuthorizationHeader authorizationHeader then
    let tokenString := nth 1 (SplitN authorizationHeader " " 2) "" in
    '(token, err) ← call (ParseWithClaims tokenString jwtKey);
    match err with
    | Some e => mret (Some (http_Error w ("Token is not valid: " +:+ e) 401))
    | None =>
        let claims := Claims token in
        if Valid token
        then prepare serviceHandler w r (Tenant claims)
        else mret (Some (http_Error w "Token is not valid or is expired" 401))
    end
  else
    mret (Some (http_Error w ("Invalid authorization header: " +:+ authorizationHeader) 401)).

Section Handlers.

(** [json.NewDecoder(r.Body).Decode(&person)] on a zero [person]: the
    value it leaves there.  The handlers drop its error. *)
Variable json_Decode : string -> Person.

(** ListPeople is a handler that returns a list of Person. *)
Definition ListPeople : handler := fun w r =>
  '(people, _) ← call Find;
  let w := Header_Add w "Content-Type" "application/json" in
  let '(w, _) := Encode w (JSONPeople people) in
  mret (w, None).

(** GetPerson is a handler that returns a single Person based on the
    informed ID. *)
Definition GetPerson : handler := fun w r =>
  let '(id, err) := Atoi (param r "id") in
  match err with
  | None =>
      '(found, _) ← call (WhereFind id);
      let person := default zeroPerson found in
      let w := Header_Add w "Content-Type" "application/json" in
      let '(w, err) := Encode w (JSONPerson person) in
      mret (w, err)
  | Some _ => mret (w, err)
  end.

(** CreatePerson is a handler that creates a new Person with the informed
    ID. *)
Definition CreatePerson : handler := fun w r =>
  let person := json_Decode (Body r) in
  let '(id, err) := Atoi (param r "id") in
  match err with
  | None =>
      let person := set_ID person id in
      call (Create person);;
      '(personList, _) ← call Find;
      let w := Header_Add w "Content-Type" "application/json" in
      let '(w, err) := Encode w (JSONPeople personList) in
      mret (w, err)
  | Some _ => mret (w, err)
  end.

(** DeletePerson is a handler that deletes the person with the informed
    ID. *)
Definition DeletePerson : handler := fun w r =>
  let person := zeroPerson in
  let '(id, err) := Atoi (param r "id") in
  match err with
  | None =>
      let person := set_ID person id in
      call (Delete person);;
      '(personList, _) ← call Find;
      let w := Header_Add w "Content-Type" "application/json" in
      let '(w, err) := Encode w (JSONPeople personList) in
      mret (w, err)
  | Some _ => mret (w, err)
  end.

(** UpdatePerson updates the person with the informed ID. *)
Definition UpdatePerson : handler := fun w r =>
  let person := json_Decode (Body r) in
  let '(id, err) := Atoi (param r "id") in
  match err with
  | None =>
      let person := set_ID person id in
      call (Save person);;
      '(personList, _) ← call Find;
      let w := Header_Add w "Content-Type" "application/json" in
      let '(w, err) := Encode w (JSONPeople personList) in
      mret (w, err)
  | Some _ => mret (w, err)
  end.

(** The routes registered in [main]. *)
Inductive Route : Type :=
| GET_people
| GET_person
| POST_person
| DELETE_person
| PUT_person.

Definition route_handler (route : Route) : handler :=
  match route with
  | GET_people => ListPeople
  | GET_person => GetPerson
  | POST_person => CreatePerson
  | DELETE_person => DeletePerson
  | PUT_person => UpdatePerson
  end.

End Handlers.

(** ** Running programs *)

Definition events (log : list Entry) : list Event := map event_of log.

Definition outcome {A S : Type} (x : A * S * list Entry) : A := x.1.1.
Definition final {A S : Type} (x : A * S * list Entry) : S := x.1.2.
Definition logged {A S : Type} (x : A * S * list Entry) : list Entry := x.2.

(** An environment without state: every call gets the scripted answer. *)
Definition scripted (answer : forall e : Event, reply e) : Env :=
  {| St := unit; step := fun e s => (s, answer e) |}.


(** The state a request of [tenant] finds when its handler starts: after
    [Begin] and the provisioning statements. *)
Definition entered (env : Env) (tenant : string) (s : St env) : St env :=
  final (run env (call Begin;; provision tenant) s).

(** The reply of [Begin] in state [s]: [None] when a transaction was
    opened. *)
Definition begin_error (env : Env) (s : St env) : option error :=
  (step env Begin s).2.

(** What [prepare] does before it panics, when [Begin] has failed. *)
Definition without_transaction (tenant : string) : Prog unit :=
  call Begin;;
  call (Exec ("create schema if not exists " +:+ tenant));;
  call (Exec ("set search_path to " +:+ tenant));;
  mret tt.

(** The calls that end a transaction. *)
Definition is_exit (e : Event) : bool :=
  match e with
  | Commit | Rollback => true
  | _ => false
  end.

Definition exits (l : list Event) : list Event := List.filter is_exit l.

(** The calls that belong to the transaction scope, not to a handler. *)
Definition is_scope (e : Event) : bool :=
  match e with
  | Begin | Commit | Rollback => true
  | _ => false
  end.


(** The entity calls of the five handlers. *)
Definition is_entity (e : Event) : bool :=
  match e with
  | Find | WhereFind _ | Create _ | Delete _ | Save _ => true
  | _ => false
  end.

(** [uses ok p]: every call [p] can make satisfies [ok]. *)
Inductive uses (ok : Event -> bool) {A : Type} : Prog A -> Prop :=
| uses_Ret (a : A) : uses ok (Ret a)
| uses_Call (e : Event) (k : reply e -> Prog A) :
    ok e = true -> (forall r, uses ok (k r)) -> uses ok (Call e k).

(** A fresh response writer for one request. *)
Definition newWriter (fault : option error) : ResponseWriter :=
  {| Header := ∅; status := None; body := []; fault := fault |}.

(** ** The storage backend

    PostgreSQL behind GORM is not part of the repository.  [backend] states
    the contract the properties about stored data rely on: one connection, a
    set of schemas each holding at most the [people] table, a search path
    naming the schema statements resolve against, and transactions that
    work on a private view published by [Commit].  A failed statement
    aborts the transaction: later statements fail and [Commit] publishes
    nothing.  How rows are stored and how the text of an identifier is read
    are left to the [Engine]. *)

Record Engine : Type := mkEngine {
  Table : Type;
  (** the table [AutoMigrate(&Person{})] creates *)
  new_table : Table;
  (** [db.Create], [db.Delete], [db.Save]; [None] when the statement fails *)
  insert : Person -> Table -> option Table;
  remove : Person -> Table -> option Table;
  upsert : Person -> Table -> option Table;
  (** [db.Find(&people)] and [db.Where("id = ?", id).Find(&person)] *)
  select : Table -> list Person;
  select_id : Z -> Table -> option Person;
  (** the schema an identifier text names; [None] when the text is not
      read as one identifier and the statement is rejected *)
  ident : string -> option string
}.

Section Backend.

Variable E : Engine.

(** [jwt.ParseWithClaims]: the token and the message of the error. *)
Variable verify : string -> string -> Token * option string.

(** An open transaction: its view of the schemas (a schema holds
    [Some table] once migrated), its search path, and whether a statement
    has failed. *)
Record Tx : Type := mkTx {
  view : gmap string (option (Table E));
  path : string;
  aborted : bool
}.

(** The connection: the committed schemas, the search path of the
    session, and the open transaction. *)
Record Conn : Type := mkConn {
  stored : gmap string (option (Table E));
  session_path : string;
  tx : option Tx
}.

Definition idle (db : gmap string (option (Table E))) (sp : string) : Conn :=
  {| stored := db; session_path := sp; tx := None |}.

Definition ErrTxDone : error :=
  errorString "sql: transaction has already been committed or rolled back".
Definition ErrAborted : error :=
  errorString "pq: current transaction is aborted, commands ignored until end of transaction block".
Definition ErrStatement : error := errorString "pq: statement failed".
Definition ErrRecordNotFound : error := errorString "record not found".

Definition abort (t : Tx) : Tx :=
  {| view := view t; path := path t; aborted := true |}.

Definition with_view (t : Tx) (v : gmap string (option (Table E))) : Tx :=
  {| view := v; path := path t; aborted := aborted t |}.

(** The [people] table the search path resolves to. *)
Definition people (t : Tx) : option (Table E) :=
  match view t !! path t with
  | Some (Some tb) => Some tb
  | _ => None
  end.

Definition create_schema (n : string) (t : Tx) : Tx :=
  match view t !! n with
  | Some _ => t
  | None => with_view t (<[n := None]> (view t))
  end.

Definition set_search_path (n : string) (t : Tx) : Tx :=
  {| view := view t; path := n; aborted := aborted t |}.

(** A raw statement.  The contract covers the two forms [prepare] builds
    when the interpolated text is one identifier.  Any other text is
    treated here as a statement the database rejects; the code sends it
    as it is, and a text holding further statements is outside this
    contract (see [identified]). *)
Definition exec (sql : string) (t : Tx) : Tx * option error :=
  if HasPrefix sql "create schema if not exists " then
    match ident E (TrimPrefix sql "create schema if not exists ") with
    | Some n => (create_schema n t, None)
    | None => (abort t, Some ErrStatement)
    end
  else if HasPrefix sql "set search_path to " then
    match ident E (TrimPrefix sql "set search_path to ") with
    | Some n => (set_search_path n t, None)
    | None => (abort t, Some ErrStatement)
    end
  else (abort t, Some ErrStatement).

(** [AutoMigrate(&Person{})]: creates the table in the current schema
    when it is missing, and leaves an existing one as it is. *)
Definition automigrate (t : Tx) : Tx * option error :=
  match view t !! path t with
  | Some None => (with_view t (<[path t := Some (new_table E)]> (view t)), None)
  | Some (Some _) => (t, None)
  | None => (abort t, Some ErrStatement)
  end.

Definition mutate (f : Table E -> option (Table E)) (t : Tx) : Tx * option error :=
  match people t with
  | Some tb =>
      match f tb with
      | Some tb' => (with_view t (<[path t := Some tb']> (view t)), None)
      | None => (abort t, Some ErrStatement)
      end
  | None => (abort t, Some ErrStatement)
  end.

(** A call on the transaction handle. *)
Definition statement (e : Event) (t : Tx) : Tx * reply e :=
  match e return Tx * reply e with
  | ParseWithClaims tokenString key => (t, verify tokenString key)
  | Begin | Commit | Rollback => (t, None)
  | Exec sql => exec sql t
  | AutoMigrate => automigrate t
  | Find =>
      match people t with
      | Some tb => (t, (select E tb, None))
      | None => (abort t, ([], Some ErrStatement))
      end
  | WhereFind id =>
      match people t with
      | Some tb =>
          (t, (select_id E id tb,
               match select_id E id tb with Some _ => None | None => Some ErrRecordNotFound end))
      | None => (abort t, (None, Some ErrStatement))
      end
  | Create person => mutate (insert E person) t
  | Delete person => mutate (remove E person) t
  | Save person => mutate (upsert E person) t
  end.

(** The reply of a statement that does not run. *)
Definition refused (e : Event) (err : error) : reply e :=
  match e return reply e with
  | ParseWithClaims tokenString key => verify tokenString key
  | Find => ([], Some err)
  | WhereFind _ => (None, Some err)
  | _ => Some err
  end.

Definition with_tx (c : Conn) (t : option Tx) : Conn :=
  {| stored := stored c; session_path := session_path c; tx := t |}.

Definition backend_step (e : Event) (c : Conn) : Conn * reply e :=
  match e return Conn * reply e with
  | ParseWithClaims tokenString key => (c, verify tokenString key)
  | Begin =>
      (with_tx c (Some {| view := stored c; path := session_path c; aborted := false |}),
       None)
  | Commit =>
      match tx c with
      | None => (c, Some ErrTxDone)
      | Some t =>
          if aborted t then (with_tx c None, Some ErrAborted)
          else ({| stored := view t; session_path := path t; tx := None |}, None)
      end
  | Rollback =>
      match tx c with
      | None => (c, Some ErrTxDone)
      | Some t => (with_tx c None, None)
      end
  | e =>
      match tx c with
      | None => (c, refused e ErrTxDone)
      | Some t =>
          if aborted t then (c, refused e ErrAborted)
          else let '(t', r) := statement e t in (with_tx c (Some t'), r)
      end
  end.

Definition backend : Env := {| St := Conn; step := backend_step |}.

(** The transaction after the provisioning statements for schema [n]. *)
Definition migrated (n : string) (t : Tx) : Tx :=
  (automigrate (set_search_path n (create_schema n t))).1.

(** The transaction [Begin] opens on [c], and what the provisioning
    statements for [tenant] make of it. *)
Definition begun (c : Conn) : Tx :=
  {| view := stored c; path := session_path c; aborted := false |}.

Definition provisioned (tenant : string) (c : Conn) : Tx :=
  match ident E tenant with
  | Some n => migrated n (begun c)
  | None => abort (begun c)
  end.

(** Two transactions that cannot be told apart through schema [n]: both
    are aborted, or neither is and both resolve against [n] and see the
    same [people] table there. *)
Definition same_schema (n : string) (t1 t2 : Tx) : Prop :=
  aborted t1 = aborted t2
  /\ (aborted t1 = false ->
      path t1 = n /\ path t2 = n /\ view t1 !! n = view t2 !! n).

(** The table a request of schema [n] works on: the stored one, or a new
    one when the schema or its table is missing. *)
Definition working_table (n : string) (c : Conn) : Table E :=
  default (new_table E) (mjoin (stored c !! n)).

(** [t'] continues [t] within its schema: same search path, still
    aborted if [t] was, and every other schema as [t] saw it. *)
Definition continues (t t' : Tx) : Prop :=
  path t' = path t
  /\ (aborted t = true -> aborted t' = true)
  /\ (forall m, m <> path t -> view t' !! m = view t !! m).

End Backend.

Arguments view {E} t.
Arguments path {E} t.
Arguments aborted {E} t.
Arguments stored {E} c.
Arguments session_path {E} c.
Arguments tx {E} c.
Arguments idle {E} db sp.
Arguments with_tx {E} c t.
Arguments abort {E} t.
Arguments migrated {E} n t.
Arguments same_schema {E} n t1 t2.
Arguments continues {E} t t'.
Arguments begun {E} c.
Arguments working_table {E} n c.
Arguments provisioned {E} tenant c.

(** ** Serving requests *)

(** An incoming request: the route the router matched, the request, and the
    write fault of its client connection. *)
Record Arrival : Type := mkArrival {
  route : Route;
  request : Request;
  client_fault : option error
}.

Section Server.

Variable E : Engine.
Variable verify : string -> string -> Token * option string.
Variable json_Decode : string -> Person.

(** [router.HandleFunc(path, handler.authorize)] for one request. *)
Definition serve (a : Arrival) (c : Conn E)
    : option ResponseWriter * Conn E * list Entry :=
  run (backend E verify)
    (authorize (route_handler json_Decode (route a)) (newWriter (client_fault a)) (request a))
    c.

(** Requests served one after the other on the connection. *)
Fixpoint serve_all (arrivals : list Arrival) (c : Conn E)
    : list (option ResponseWriter) :=
  match arrivals with
  | [] => []
  | a :: rest => outcome (serve a c) :: serve_all rest (final (serve a c))
  end.

(** The tenant claim of a request that passes [authorize]. *)
Definition tenant_of (r : Request) : option string :=
  let authorizationHeader := Header_Get r "Authorization" in
  if isValidAuthorizationHeader authorizationHeader then
    match verify (nth 1 (SplitN authorizationHeader " " 2) "") jwtKey with
    | (token, None) => if Valid token then Some (Tenant (Claims token)) else None
    | (_, Some _) => None
    end
  else None.

(** The schema that claim names. *)
Definition schema_of (r : Request) : option string :=
  match tenant_of r with
  | Some tenant => ident E tenant
  | None => None
  end.

(** The responses to the arrivals selected by [keep], in order. *)
Fixpoint responses_to (keep : Arrival -> bool) (arrivals : list Arrival)
    (c : Conn E) : list (option ResponseWriter) :=
  match arrivals with
  | [] => []
  | a :: rest =>
      let tail := responses_to keep rest (final (serve a c)) in
      if keep a then outcome (serve a c) :: tail else tail
  end.

Definition in_schema (n : string) (a : Arrival) : bool :=
  bool_decide (schema_of (request a) = Some n).

Definition of_tenant (tenant : string) (a : Arrival) : bool :=
  bool_decide (tenant_of (request a) = Some tenant).

(** The arrivals whose statements the storage contract covers: those that
    do not pass [authorize], and those whose tenant claim the backend
    reads as one identifier.  Any other claim is sent to the database as
    the text it is. *)
Definition identified (a : Arrival) : bool :=
  match tenant_of (request a) with
  | Some tenant => bool_decide (is_Some (ident E tenant))
  | None => true
  end.

End Server.

(** ** Sample collaborators *)

Definition isUpper (c : ascii) : bool :=
  (65 <=? nat_of_ascii c)%nat && (nat_of_ascii c <=? 90)%nat.
Definition isLower (c : ascii) : bool :=
  (97 <=? nat_of_ascii c)%nat && (nat_of_ascii c <=? 122)%nat.
Definition isLetter (c : ascii) : bool := isUpper c || isLower c.

Definition toLower (c : ascii) : ascii :=
  if isUpper c then ascii_of_nat (nat_of_ascii c + 32) else c.

Fixpoint map_string (f : ascii -> ascii) (s : string) : string :=
  match s with
  | EmptyString => EmptyString
  | String c s' => String (f c) (map_string f s')
  end.

Fixpoint all_bytes (ok : ascii -> bool) (s : string) : bool :=
  match s with
  | EmptyString => true
  | String c s' => ok c && all_bytes ok s'
  end.

(** PostgreSQL's reading of an unquoted ASCII identifier (key words aside):
    a letter or underscore, then letters, digits, underscores or dollar
    signs; the name is the text folded to lower case. *)
Definition pg_ident (s : string) : option string :=
  match s with
  | EmptyString => None
  | String c rest =>
      if (isLetter c || Ascii.eqb c "_")
         && all_bytes (fun c => isLetter c || isDigit c || Ascii.eqb c "_" || Ascii.eqb c "$") rest
      then Some (map_string toLower s)
      else None
  end.

Definition has_id (id : Z) (p : Person) : bool := (ID p =? id)%Z.

(** A table kept as the list of its rows, [id] being the primary key. *)
Definition rows_engine : Engine :=
  {| Table := list Person;
     new_table := [];
     insert := fun p tb => if existsb (has_id (ID p)) tb then None else Some (tb ++ [p]);
     remove := fun p tb => Some (List.filter (fun q => negb (has_id (ID p) q)) tb);
     upsert := fun p tb =>
       Some (if existsb (has_id (ID p)) tb
             then map (fun q => if has_id (ID p) q then p else q) tb
             else tb ++ [p]);
     select := fun tb => tb;
     select_id := fun id tb => List.find (has_id id) tb;
     ident := pg_ident |}.

(** A verifier that accepts every token under the service key and reads the
    tenant from the token text. *)
Definition open_verifier (tokenString key : string) : Token * option string :=
  if String.eqb key jwtKey
  then ({| Claims := {| UserName := "user"; Tenant := tokenString |}; Valid := true |}, None)
  else ({| Claims := {| UserName := ""; Tenant := "" |}; Valid := false |},
        Some "signature is invalid").

(** A decoder that reads the body as the name. *)
Definition name_decoder (body : string) : Person := {| ID := 0; Name := body |}.

(** A request carrying [Authorization: Bearer <token>], the route variable
    [id] and a body. *)
Definition bearer (token id body : string) : Request :=
  {| ReqHeader := {[ "Authorization" := ["Bearer " +:+ token] ]};
     Vars := {[ "id" := id ]};
     Body := body |}.

(** Every call succeeds with nothing found; tokens are valid with the
    given tenant. *)
Definition all_fine (tenant : string) (e : Event) : reply e :=
  match e return reply e with
  | ParseWithClaims _ _ =>
      ({| Claims := {| UserName := "user"; Tenant := tenant |}; Valid := true |}, None)
  | Find => ([], None)
  | WhereFind _ => (None, None)
  | _ => None
  end.

(** As [all_fine], but the raw statements and the migration fail. *)
Definition provisioning_fails (tenant : string) (e : Event) : reply e :=
  match e return reply e with
  | Exec _ => Some (errorString "pq: permission denied for database postgres")
  | AutoMigrate => Some (errorString "pq: no schema has been selected to create in")
  | e => all_fine tenant e
  end.

(** The allow-list the specification names for tenant identifiers:
    alphanumeric plus underscore, of bounded length. *)
Definition allow_listed (bound : nat) (s : string) : bool :=
  (1 <=? String.length s)%nat && (String.length s <=? bound)%nat
  && all_bytes (fun c => isLetter c || isDigit c || Ascii.eqb c "_") s.

(** ** The rest of restService.go *)

(** Gets an environment variable value, otherwise returns the defined
    default value.  [environ] is the process environment as
    [os.LookupEnv] reads it; the second component is what is handed to
    [log.Printf]. *)
Definition loadEnv (environ : gmap string string) (envName defaultValue : string)
    : string * list string :=
  match environ !! envName with
  | Some value => (value, [])
  | None =>
      (defaultValue,
       ["Could not find the env " +:+ envName +:+ ", using it's default value ("
        +:+ defaultValue +:+ ") instead"])
  end.

(** The entity calls that only read. *)
Definition is_read (e : Event) : bool :=
  match e with
  | Find | WhereFind _ => true
  | _ => false
  end.

(** The scope calls among a list of calls. *)
Definition scope_calls (l : list Event) : list Event := List.filter is_scope l.

(** The routes whose path carries an [id]. *)
Definition has_id_variable (rt : Route) : bool :=
  match rt with
  | GET_people => false
  | _ => true
  end.

(** The routes registered with [GET]. *)
Definition is_GET (rt : Route) : bool :=
  match rt with
  | GET_people | GET_person => true
  | _ => false
  end.

(** The database call a route with a body or a delete makes first. *)
Definition mutation_of (json_Decode : string -> Person) (rt : Route) (r : Request)
    (id : Z) : option Event :=
  match rt with
  | POST_person => Some (Create (set_ID (json_Decode (Body r)) id))
  | PUT_person => Some (Save (set_ID (json_Decode (Body r)) id))
  | DELETE_person => Some (Delete (set_ID zeroPerson id))
  | _ => None
  end.

(** How the engine applies that call to a table. *)
Definition apply_mutation (E : Engine) (e : Event) (tb : Table E) : option (Table E) :=
  match e with
  | Create person => insert E person tb
  | Save person => upsert E person tb
  | Delete person => remove E person tb
  | _ => Some tb
  end.

(** As [all_fine], but the connection is lost once the transaction is
    open: [Begin] succeeds and every later call on the database reports an
    error. *)
Definition database_lost (tenant : string) (e : Event) : reply e :=
  match e return reply e with
  | ParseWithClaims _ _ => all_fine tenant (ParseWithClaims "" "")
  | Begin => None
  | Find => ([], Some (errorString "pq: connection lost"))
  | WhereFind _ => (None, Some (errorString "pq: connection lost"))
  | _ => Some (errorString "pq: connection lost")
  end.

(** As [all_fine], but every call on the database reports an error. *)
Definition database_down (tenant : string) (e : Event) : reply e :=
  match e return reply e with
  | ParseWithClaims _ _ => all_fine tenant (ParseWithClaims "" "")
  | Find => ([], Some (errorString "pq: connection refused"))
  | WhereFind _ => (None, Some (errorString "pq: connection refused"))
  | _ => Some (errorString "pq: connection refused")
  end.
(** * Properties *)

(** ** Library functions on sample inputs *)

Example Atoi_5 : Atoi "5" = (5%Z, None).
Proof. reflexivity. Qed.

Example Atoi_neg : Atoi "-12" = ((-12)%Z, None).
Proof. reflexivity. Qed.

Example Atoi_abc : Atoi "abc" = (0%Z, Some (NumError "Atoi" "abc" ErrSyntax)).
Proof. reflexivity. Qed.

Example Atoi_sign_only : Atoi "-" = (0%Z, Some (NumError "Atoi" "-" ErrSyntax)).
Proof. reflexivity. Qed.

Example Atoi_big :
  Atoi "9223372036854775808"
  = ((2 ^ 63 - 1)%Z, Some (NumError "Atoi" "9223372036854775808" ErrRange)).
Proof. reflexivity. Qed.

Example header_empty : isValidAuthorizationHeader "" = false.
Proof. reflexivity. Qed.

Example header_ok : isValidAuthorizationHeader "Bearer abc.def" = true.
Proof. reflexivity. Qed.

Example header_two_spaces : isValidAuthorizationHeader "Bearer  x" = true.
Proof. reflexivity. Qed.

Example header_no_token : isValidAuthorizationHeader "Bearer " = false.
Proof. reflexivity. Qed.

Example header_basic : isValidAuthorizationHeader "Basic abc" = false.
Proof. reflexivity. Qed.

(** ** Running programs: basic equations *)

Lemma run_bind (env : Env) {A B : Type} (p : Prog A) (f : A -> Prog B) (s : St env) :
  run env (p ≫= f) s =
  let '(a, s1, l1) := run env p s in
  let '(b, s2, l2) := run env (f a) s1 in
  (b, s2, l1 ++ l2).
Proof.
  revert s. induction p as [a | e k IH]; intros s.
  - cbn. destruct (run env (f a) s) as [[b s2] l2]. reflexivity.
  - change (Call e k ≫= f) with (Call e (fun r => k r ≫= f)). cbn.
    destruct (step env e s) as [s1 r]. rewrite IH.
    destruct (run env (k r) s1) as [[a s2] l1].
    destruct (run env (f a) s2) as [[b s3] l2]. reflexivity.
Qed.

Lemma run_call (env : Env) (e : Event) (s : St env) :
  run env (call e) s = ((step env e s).2, (step env e s).1, [entry e (step env e s).2]).
Proof. cbn. destruct (step env e s) as [s1 r]. reflexivity. Qed.

Lemma run_ret (env : Env) {A : Type} (a : A) (s : St env) :
  run env (mret a) s = (a, s, []).
Proof. reflexivity. Qed.

(** ** The header check *)

Lemma append_String (c : ascii) (a b : string) : String c a +:+ b = String c (a +:+ b).
Proof. reflexivity. Qed.

Lemma append_empty (b : string) : "" +:+ b = b.
Proof. reflexivity. Qed.

Lemma HasPrefix_split (s sep : string) :
  HasPrefix s sep = true -> s = sep +:+ TrimPrefix s sep.
Proof.
  revert s. induction sep as [| p sep IH]; intros s H.
  - reflexivity.
  - destruct s as [| c s]; [discriminate |]. cbn in H.
    apply andb_prop in H as [Hc Hs]. apply Ascii.eqb_eq in Hc. subst c.
    change (String p s = String p (sep +:+ TrimPrefix s sep)).
    f_equal. apply IH, Hs.
Qed.

(** [Cut] splits around an occurrence of the separator. *)
Lemma Cut_split (s sep before after : string) :
  Cut s sep = Some (before, after) -> s = before +:+ sep +:+ after.
Proof.
  revert before after. induction s as [| c s IH]; intros before after H.
  - cbn in H. destruct (HasPrefix "" sep) eqn:Hp; [| discriminate].
    inversion H; subst. rewrite append_empty. apply HasPrefix_split, Hp.
  - cbn in H. fold (HasPrefix (String c s) sep) in H.
    destruct (HasPrefix (String c s) sep) eqn:Hp.
    + inversion H; subst. rewrite append_empty. apply HasPrefix_split, Hp.
    + destruct (Cut s sep) as [[b a] |] eqn:Hc; [| discriminate].
      inversion H; subst. rewrite append_String. f_equal. apply IH. reflexivity.
Qed.

(** With a space as separator, the occurrence is the first one. *)
Lemma Cut_space_first (s before after : string) :
  Cut s " " = Some (before, after) ->
  all_bytes (fun c => negb (Ascii.eqb c " ")) before = true.
Proof.
  revert before after. induction s as [| c s IH]; intros before after H.
  - discriminate.
  - cbn in H. destruct (Ascii.eqb c " ") eqn:Hc; cbn in H.
    + inversion H; subst. reflexivity.
    + destruct (Cut s " ") as [[b a] |] eqn:Hs; [| discriminate].
      inversion H; subst. cbn. rewrite Hc. cbn. eapply IH. reflexivity.
Qed.

Lemma SplitN_space_2 (s : string) :
  SplitN s " " 2 =
  match Cut s " " with
  | Some (before, after) => [before; after]
  | None => [s]
  end.
Proof. cbn. destruct (Cut s " ") as [[b a] |]; reflexivity. Qed.

Lemma header_valid_iff_Cut (header : string) :
  isValidAuthorizationHeader header = true <->
  exists token, Cut header " " = Some ("Bearer", token) /\ token <> "".
Proof.
  unfold isValidAuthorizationHeader. rewrite SplitN_space_2. split.
  - destruct (String.eqb header "") eqn:He; [discriminate |].
    destruct (Cut header " ") as [[b a] |]; cbn; [| discriminate].
    intros H. apply andb_prop in H as [Hb Ha].
    apply String.eqb_eq in Hb. subst b. exists a. split; [reflexivity |].
    intros ->. discriminate.
  - intros (token & Hc & Hne). rewrite Hc.
    destruct (String.eqb header "") eqn:He.
    + apply String.eqb_eq in He. subst header. discriminate.
    + cbn. destruct token; [congruence | reflexivity].
Qed.

Lemma header_valid_iff_Bearer (header : string) :
  isValidAuthorizationHeader header = true <->
  exists token, header = "Bearer " +:+ token /\ token <> "".
Proof.
  rewrite header_valid_iff_Cut. split; intros (token & H & Hne); exists token.
  - split; [| exact Hne]. apply Cut_split in H. exact H.
  - split; [| exact Hne]. subst header. reflexivity.
Qed.

Lemma http_Error_status (w : ResponseWriter) (msg : string) (code : Z) :
  status w = None -> status (http_Error w msg code) = Some code.
Proof.
  destruct w as [h st b f]. cbn. intros ->.
  unfold http_Error, Write. cbn. destruct f; reflexivity.
Qed.

(** C7.  The header check accepts a value exactly when cutting it at its
    first space gives the word [Bearer] and a non-empty rest, that is when
    the value is [Bearer <nonempty-token>].  When the check fails,
    [authorize] answers 401 on a fresh writer and makes no call at all: no
    token is parsed and no transaction is opened. *)
Theorem malformed_header_is_rejected (env : Env) (serviceHandler : handler)
    (w : ResponseWriter) (r : Request) (s : St env) :
  status w = None ->
  let header := Header_Get r "Authorization" in
  (isValidAuthorizationHeader header = true <->
     exists token,
       Cut header " " = Some ("Bearer", token) /\ token <> ""
       /\ header = "Bearer " +:+ token)
  /\ (isValidAuthorizationHeader header = false ->
      run env (authorize serviceHandler w r) s
      = (Some (http_Error w ("Invalid authorization header: " +:+ header) 401), s, [])
      /\ sent_status <$> outcome (run env (authorize serviceHandler w r) s) = Some 401%Z).
Proof.
  intros Hw header. split.
  - rewrite header_valid_iff_Cut. split.
    + intros (token & Hc & Hne). exists token. repeat split; try assumption.
      apply Cut_split in Hc. exact Hc.
    + intros (token & Hc & Hne & _). exists token. split; assumption.
  - intros Hbad. unfold authorize. fold header. rewrite Hbad. cbn.
    split; [reflexivity |].
    unfold sent_status, outcome. cbn -[http_Error].
    rewrite http_Error_status by exact Hw. reflexivity.
Qed.

Lemma malformed_header_is_rejected_witness :
  let r := {| ReqHeader := {[ "Authorization" := ["Bearer "] ]}; Vars := ∅; Body := "" |} in
  isValidAuthorizationHeader (Header_Get r "Authorization") = false
  /\ run (scripted (all_fine "acme")) (authorize ListPeople (newWriter None) r) tt
     = (Some (http_Error (newWriter None) "Invalid authorization header: Bearer " 401), tt, [])
  /\ sent_status
       <$> outcome (run (scripted (all_fine "acme")) (authorize ListPeople (newWriter None) r) tt)
     = Some 401%Z.
Proof.
  intros r.
  pose proof (malformed_header_is_rejected (scripted (all_fine "acme")) ListPeople
                (newWriter None) r tt eq_refl) as [_ H].
  split; [reflexivity |]. apply H. reflexivity.
Defined.

(** ** The transaction scope, for every environment *)

Ltac step_all :=
  repeat match goal with
    | |- context [step ?env ?e ?s] =>
        let s' := fresh "s" in
        let r := fresh "r" in
        destruct (step env e s) as [s' r] eqn:?; cbn
    end.

(** The scope opens with [Begin] and the three provisioning calls, whatever
    the tenant text and whatever the calls answer. *)
Lemma enter_events (env : Env) (tenant : string) (s : St env) :
  events (logged (run env (call Begin;; provision tenant) s))
  = [Begin; Exec ("create schema if not exists " +:+ tenant);
     Exec ("set search_path to " +:+ tenant); AutoMigrate].
Proof. cbn. step_all. reflexivity. Qed.

(** [prepare] with a transaction is: enter, run the handler, end the
    transaction on the handler's error, and hand back the handler's
    writer. *)
Lemma run_prepare (env : Env) (h : handler) (w : ResponseWriter) (r : Request)
    (tenant : string) (s : St env) :
  begin_error env s = None ->
  run env (prepare h w r tenant) s =
  let x := run env (h w r) (entered env tenant s) in
  let y := run env (finish (outcome x).2) (final x) in
  (Some (outcome x).1, final y,
   logged (run env (call Begin;; provision tenant) s) ++ logged x ++ logged y).
Proof.
  unfold begin_error, prepare, entered. intros Hb.
  rewrite !run_bind. unfold call. cbn [run].
  destruct (step env Begin s) as [s0 r0]. cbn [snd] in Hb. subst r0.
  cbn -[finish provision].
  rewrite !run_bind.
  destruct (run env (provision tenant) s0) as [[r1 s1] l1].
  rewrite run_bind. cbn -[finish].
  destruct (run env (h w r) s1) as [[[w' err] s2] l2].
  rewrite run_bind. cbn -[finish].
  destruct (run env (finish err) s2) as [[r3 s3] l3]. cbn.
  rewrite app_nil_r. reflexivity.
Qed.

(** [prepare] without a transaction stops before the migration. *)
Lemma run_prepare_failed (env : Env) (h : handler) (w : ResponseWriter) (r : Request)
    (tenant : string) (s : St env) :
  begin_error env s <> None ->
  run env (prepare h w r tenant) s
  = (None, final (run env (without_transaction tenant) s),
     logged (run env (without_transaction tenant) s)).
Proof.
  unfold begin_error, prepare, without_transaction. intros Hb.
  rewrite !run_bind. unfold call. cbn [run].
  destruct (step env Begin s) as [s0 [e |]]; cbn [snd] in Hb; [| congruence].
  cbn. step_all. reflexivity.
Qed.

Lemma without_transaction_events (env : Env) (tenant : string) (s : St env) :
  events (logged (run env (without_transaction tenant) s))
  = [Begin; Exec ("create schema if not exists " +:+ tenant);
     Exec ("set search_path to " +:+ tenant)].
Proof. cbn. step_all. reflexivity. Qed.

Lemma finish_events (env : Env) (err : option error) (s : St env) :
  events (logged (run env (finish err) s))
  = [match err with None => Commit | Some _ => Rollback end].
Proof. destruct err; cbn; step_all; reflexivity. Qed.

Lemma events_app (l1 l2 : list Entry) : events (l1 ++ l2) = events l1 ++ events l2.
Proof. apply map_app. Qed.

Lemma exits_app (l1 l2 : list Event) : exits (l1 ++ l2) = exits l1 ++ exits l2.
Proof. apply List.filter_app. Qed.

Lemma prepare_events (env : Env) (h : handler) (w : ResponseWriter) (r : Request)
    (tenant : string) (s : St env) :
  begin_error env s = None ->
  let x := run env (h w r) (entered env tenant s) in
  events (logged (run env (prepare h w r tenant) s))
  = [Begin; Exec ("create schema if not exists " +:+ tenant);
     Exec ("set search_path to " +:+ tenant); AutoMigrate]
    ++ events (logged x)
    ++ [match (outcome x).2 with None => Commit | Some _ => Rollback end].
Proof.
  intros Hb x. rewrite run_prepare by exact Hb. fold x. cbn zeta.
  unfold logged at 1. cbn [snd].
  rewrite !events_app, enter_events, finish_events. reflexivity.
Qed.

(** For every handler: the calls that end a transaction during a
    [prepare] that opened one are those the handler made itself followed
    by exactly one more. *)
Lemma exit_after_any_handler (env : Env) (serviceHandler : handler)
    (w : ResponseWriter) (r : Request) (tenant : string) (s : St env) :
  begin_error env s = None ->
  let unit_run := run env (serviceHandler w r) (entered env tenant s) in
  exits (events (logged (run env (prepare serviceHandler w r tenant) s)))
  = exits (events (logged unit_run))
    ++ [match (outcome unit_run).2 with None => Commit | Some _ => Rollback end].
Proof.
  intros Hb unit_run. unfold unit_run. rewrite prepare_events by exact Hb.
  rewrite !exits_app. cbn [exits List.filter is_exit app].
  destruct (outcome _).2; reflexivity.
Qed.

(** Without a transaction nothing is ended and nothing is answered. *)
Lemma no_exit_without_transaction (env : Env) (h : handler) (w : ResponseWriter)
    (r : Request) (tenant : string) (s : St env) :
  begin_error env s <> None ->
  outcome (run env (prepare h w r tenant) s) = None
  /\ events (logged (run env (prepare h w r tenant) s))
     = [Begin; Exec ("create schema if not exists " +:+ tenant);
        Exec ("set search_path to " +:+ tenant)].
Proof.
  intros Hb. rewrite run_prepare_failed by exact Hb.
  split; [reflexivity |]. apply without_transaction_events.
Qed.

(** ** The five handlers *)




Lemma uses_events (ok : Event -> bool) (env : Env) {A : Type} (p : Prog A) (s : St env) :
  uses ok p -> Forall (fun e => ok e = true) (events (logged (run env p s))).
Proof.
  intros Hp. revert s. induction Hp as [a | e k He Hk IH]; intros s.
  - constructor.
  - cbn. destruct (step env e s) as [s1 r]. specialize (IH r s1).
    destruct (run env (k r) s1) as [[a s2] l]. cbn in *.
    constructor; [exact He | exact IH].
Qed.

Ltac uses_handler :=
  repeat (cbn;
    first
      [ apply uses_Ret
      | apply uses_Call;
          [reflexivity | let r := fresh "r" in intros r; cbn in r; try destruct r]
      | match goal with
        | |- uses _ (let '(_, _) := ?x in _) => destruct x
        | |- uses _ (match ?x with _ => _ end) => destruct x
        end ]).

(** The registered handlers make entity calls only. *)
Lemma route_handler_entity (json_Decode : string -> Person) (rt : Route)
    (w : ResponseWriter) (r : Request) :
  uses is_entity (route_handler json_Decode rt w r).
Proof.
  destruct rt; cbn;
    unfold ListPeople, GetPerson, CreatePerson, DeletePerson, UpdatePerson;
    uses_handler.
Qed.

Lemma no_exit_events (l : list Event) :
  Forall (fun e => is_scope e = false) l -> exits l = [].
Proof.
  induction 1 as [| e l He Hl IH]; [reflexivity |].
  cbn. destruct e; try discriminate; exact IH.
Qed.

Lemma entity_not_scope (e : Event) : is_entity e = true -> is_scope e = false.
Proof. destruct e; intros H; try discriminate; reflexivity. Qed.

(** On the registered routes a request that opened a transaction ends it
    exactly once. *)
Lemma registered_handlers_exit_once (env : Env) (json_Decode : string -> Person)
    (rt : Route) (w : ResponseWriter) (r : Request) (tenant : string) (s : St env) :
  begin_error env s = None ->
  let unit_run := run env (route_handler json_Decode rt w r) (entered env tenant s) in
  exits (events (logged (run env (prepare (route_handler json_Decode rt) w r tenant) s)))
  = [match (outcome unit_run).2 with None => Commit | Some _ => Rollback end].
Proof.
  intros Hb unit_run. unfold unit_run. rewrite prepare_events by exact Hb.
  rewrite !exits_app.
  rewrite (no_exit_events (events (logged (run env (route_handler json_Decode rt w r) _)))).
  - cbn [exits List.filter is_exit app]. destruct (outcome _).2; reflexivity.
  - eapply List.Forall_impl;
      [| exact (uses_events is_entity env _ _ (route_handler_entity json_Decode rt w r))].
    intros e. apply entity_not_scope.
Qed.

(** C6, as the code has it.  Transaction exit rule.  For every handler,
    in every environment: when [Begin] opened a transaction, [prepare]
    ends it once, after the handler has returned, with [Commit] when the
    handler returned no error and with [Rollback] when it returned any
    error, and nothing but that error value is consulted; the registered
    handlers end no transaction themselves, so on every route exactly one
    of the two calls is made.  When [Begin] failed, [prepare] panics before
    the handler is run: neither [Commit] nor [Rollback] is called and
    nothing is answered. *)
Theorem transaction_exit_rule (env : Env) (serviceHandler : handler)
    (json_Decode : string -> Person) (rt : Route)
    (w : ResponseWriter) (r : Request) (tenant : string) (s : St env) :
  match begin_error env s with
  | None =>
      (let unit_run := run env (serviceHandler w r) (entered env tenant s) in
       exits (events (logged (run env (prepare serviceHandler w r tenant) s)))
       = exits (events (logged unit_run))
         ++ [match (outcome unit_run).2 with None => Commit | Some _ => Rollback end])
      /\
      (let unit_run := run env (route_handler json_Decode rt w r) (entered env tenant s) in
       exits (events (logged (run env (prepare (route_handler json_Decode rt) w r tenant) s)))
       = [match (outcome unit_run).2 with None => Commit | Some _ => Rollback end])
  | Some _ =>
      outcome (run env (prepare serviceHandler w r tenant) s) = None
      /\ events (logged (run env (prepare serviceHandler w r tenant) s))
         = [Begin; Exec ("create schema if not exists " +:+ tenant);
            Exec ("set search_path to " +:+ tenant)]
      /\ exits (events (logged (run env (prepare serviceHandler w r tenant) s))) = []
  end.
Proof.
  destruct (begin_error env s) as [e |] eqn:Hb.
  - destruct (no_exit_without_transaction env serviceHandler w r tenant s) as [Ho He].
    { congruence. }
    split; [exact Ho |]. split; [exact He |]. rewrite He. reflexivity.
  - split.
    + apply exit_after_any_handler, Hb.
    + apply registered_handlers_exit_once, Hb.
Qed.

(** C6 as stated fails: when [Begin] returns an error, an invocation of
    [prepare] calls neither [Commit] nor [Rollback]; it stops after the two
    statements, where [db.AutoMigrate] panics, and nothing is answered. *)
Lemma failed_begin_is_neither_committed_nor_rolled_back :
  let x := run (scripted (database_down "acme"))
             (prepare ListPeople (newWriter None) (bearer "acme" "" "") "acme") tt in
  logged x
  = [entry Begin (Some (errorString "pq: connection refused"));
     entry (Exec "create schema if not exists acme")
       (Some (errorString "pq: connection refused"));
     entry (Exec "set search_path to acme")
       (Some (errorString "pq: connection refused"))]
  /\ exits (events (logged x)) = []
  /\ outcome x = None.
Proof. cbn zeta. repeat split; reflexivity. Qed.

(** ** Provisioning, for every environment *)

(** C4, as the code has it.  The replies of the provisioning calls are
    never read.  In the transaction [Begin] opened, whatever the two
    statements and the migration answer, [prepare] goes on to run the
    handler in the state they left, ends the transaction on the handler's
    error alone, and hands back the writer as the handler left it.  The
    error of [Begin] is not read either: without a transaction the two
    statements are still called, and [prepare] panics in the migration
    with nothing answered. *)
Theorem provisioning_replies_are_discarded (env : Env) (serviceHandler : handler)
    (w : ResponseWriter) (r : Request) (tenant : string) (s : St env) :
  let unit_run := run env (serviceHandler w r) (entered env tenant s) in
  let x := run env (prepare serviceHandler w r tenant) s in
  match begin_error env s with
  | None =>
      events (logged x)
      = [Begin; Exec ("create schema if not exists " +:+ tenant);
         Exec ("set search_path to " +:+ tenant); AutoMigrate]
        ++ events (logged unit_run)
        ++ [match (outcome unit_run).2 with None => Commit | Some _ => Rollback end]
      /\ outcome x = Some (outcome unit_run).1
  | Some _ =>
      events (logged x)
      = [Begin; Exec ("create schema if not exists " +:+ tenant);
         Exec ("set search_path to " +:+ tenant)]
      /\ outcome x = None
  end.
Proof.
  intros unit_run x. destruct (begin_error env s) as [e |] eqn:Hb.
  - destruct (no_exit_without_transaction env serviceHandler w r tenant s) as [Ho He].
    { congruence. }
    split; assumption.
  - split.
    + apply prepare_events, Hb.
    + unfold x. rewrite run_prepare by exact Hb. reflexivity.
Qed.

(** C4 as stated fails: with both statements and the migration failing,
    the handler of [GET /people] still runs, answers 200, and the
    transaction is committed, not rolled back. *)
Lemma provisioning_failure_is_committed :
  let x := run (scripted (provisioning_fails "acme"))
             (prepare ListPeople (newWriter None) (bearer "acme" "" "") "acme") tt in
  logged x
  = [entry Begin None;
     entry (Exec "create schema if not exists acme")
       (Some (errorString "pq: permission denied for database postgres"));
     entry (Exec "set search_path to acme")
       (Some (errorString "pq: permission denied for database postgres"));
     entry AutoMigrate
       (Some (errorString "pq: no schema has been selected to create in"));
     entry Find ([], None);
     entry Commit None]
  /\ ~ In Rollback (events (logged x))
  /\ status <$> outcome x = Some (Some 200%Z)
  /\ body <$> outcome x = Some [JSONPeople []].
Proof.
  cbn zeta. split; [reflexivity |]. split; [| split; reflexivity].
  cbn. intros H. repeat (destruct H as [H | H]; [discriminate |]). exact H.
Qed.

(** C2, as the code has it.  Provisioning checks nothing about the tenant
    text: for every text, allow-listed or not, it issues the two statements
    with the text appended, then the migration. *)
Theorem provisioning_interpolates_any_text (env : Env) (tenant : string) (s : St env) :
  events (logged (run env (provision tenant) s))
  = [Exec ("create schema if not exists " +:+ tenant);
     Exec ("set search_path to " +:+ tenant);
     AutoMigrate].
Proof. cbn. step_all. reflexivity. Qed.

(** C2 as stated fails: a text that is outside the allow-list for every
    length bound, and that PostgreSQL does not read as an identifier, is
    interpolated into both statements. *)
Lemma unsafe_identifier_is_interpolated :
  let tenant := "x; drop schema acme cascade" in
  (forall bound, allow_listed bound tenant = false)
  /\ pg_ident tenant = None
  /\ events (logged (run (scripted (all_fine tenant)) (provision tenant) tt))
     = [Exec "create schema if not exists x; drop schema acme cascade";
        Exec "set search_path to x; drop schema acme cascade";
        AutoMigrate].
Proof.
  cbn zeta. split; [| split; reflexivity].
  intros bound. unfold allow_listed.
  apply andb_false_intro2. reflexivity.
Qed.

(** ** Authorization, for every environment *)

(** A verified token sends the request into [prepare] with its tenant
    claim as it is. *)
Lemma authorize_verified (env : Env) (serviceHandler : handler) (w : ResponseWriter)
    (r : Request) (s s1 : St env) (token : Token) :
  let header := Header_Get r "Authorization" in
  let parse := ParseWithClaims (nth 1 (SplitN header " " 2) "") jwtKey in
  isValidAuthorizationHeader header = true ->
  step env parse s = (s1, (token, None)) ->
  Valid token = true ->
  run env (authorize serviceHandler w r) s
  = let y := run env (prepare serviceHandler w r (Tenant (Claims token))) s1 in
    (outcome y, final y, entry parse (token, None) :: logged y).
Proof.
  intros header parse Hv Hs Ht. unfold authorize. fold header. rewrite Hv.
  fold parse. rewrite run_bind. unfold call. cbn [run]. rewrite Hs.
  cbn -[prepare]. rewrite Ht.
  destruct (run env (prepare _ _ _ _) s1) as [[w' s2] l]. reflexivity.
Qed.

(** C3 fails on the code.  A verified token whose tenant claim is empty
    is not refused: [authorize] opens a transaction, issues the
    provisioning statements with nothing after the key words, runs the
    handler and answers 200. *)
Theorem empty_tenant_is_provisioned :
  let x := run (scripted (all_fine ""))
             (authorize ListPeople (newWriter None) (bearer "signed.token" "" "")) tt in
  events (logged x)
  = [ParseWithClaims "signed.token" jwtKey;
     Begin;
     Exec "create schema if not exists ";
     Exec "set search_path to ";
     AutoMigrate;
     Find;
     Commit]
  /\ sent_status <$> outcome x = Some 200%Z.
Proof. cbn zeta. split; reflexivity. Qed.

(** C5 fails on the code.  [GET /person/abc]: the handler returns the
    parse error of [Atoi] without writing; [prepare] rolls back and writes
    nothing either, so the writer comes back as it went in, and a fresh
    writer leaves the request with status 200 and an empty body.  (When
    [Begin] failed [prepare] panics instead, and no error status is written
    then either.) *)
Theorem handler_error_gets_no_response (env : Env) (w : ResponseWriter)
    (token text tenant : string) (fault : option error) (s : St env) :
  let x := run env (prepare GetPerson w (bearer token "abc" text) tenant) s in
  let y := run env (prepare GetPerson (newWriter fault) (bearer token "abc" text) tenant) s in
  match begin_error env s with
  | None =>
      outcome x = Some w
      /\ events (logged x)
         = [Begin; Exec ("create schema if not exists " +:+ tenant);
            Exec ("set search_path to " +:+ tenant); AutoMigrate; Rollback]
      /\ status <$> outcome y = Some None
      /\ body <$> outcome y = Some []
      /\ sent_status <$> outcome y = Some 200%Z
  | Some _ => outcome x = None /\ outcome y = None
  end.
Proof.
  cbn zeta. destruct (begin_error env s) as [e |] eqn:Hb.
  - split; rewrite run_prepare_failed by congruence; reflexivity.
  - assert (H : forall w0,
               outcome (run env (prepare GetPerson w0 (bearer token "abc" text) tenant) s)
               = Some w0).
    { intros w0. rewrite run_prepare by exact Hb. reflexivity. }
    split; [apply H |]. split.
    + rewrite prepare_events by exact Hb. reflexivity.
    + rewrite H. repeat split; reflexivity.
Qed.

(** ** The id of the path *)

Lemma set_ID_ID (person : Person) (id : Z) : ID (set_ID person id) = id.
Proof. reflexivity. Qed.

(** C10.  Path id overrides body id.  On Create, Update and Delete, when
    the [id] route variable parses, the person handed to the database call
    carries that id, whatever the decoder found in the body (only the name
    of the body is kept; Delete sends the id alone); when it does not
    parse, the handler makes no call and returns the error of [Atoi] with
    the writer untouched. *)
Theorem path_id_overrides_body_id (env : Env) (json_Decode : string -> Person)
    (w : ResponseWriter) (r : Request) (s : St env) :
  let created := run env (CreatePerson json_Decode w r) s in
  let updated := run env (UpdatePerson json_Decode w r) s in
  let deleted := run env (DeletePerson w r) s in
  match Atoi (param r "id") with
  | (id, None) =>
      (exists person,
          events (logged created) = [Create person; Find]
          /\ ID person = id /\ Name person = Name (json_Decode (Body r)))
      /\ (exists person,
          events (logged updated) = [Save person; Find]
          /\ ID person = id /\ Name person = Name (json_Decode (Body r)))
      /\ events (logged deleted) = [Delete {| ID := id; Name := "" |}; Find]
  | (_, Some e) =>
      created = ((w, Some e), s, [])
      /\ updated = ((w, Some e), s, [])
      /\ deleted = ((w, Some e), s, [])
  end.
Proof.
  cbn zeta. unfold CreatePerson, UpdatePerson, DeletePerson.
  destruct (Atoi (param r "id")) as [id [e |]].
  - repeat split; reflexivity.
  - split; [| split].
    + exists (set_ID (json_Decode (Body r)) id). split; [| split; reflexivity].
      cbn. step_all.
      cbn in r1. destruct r1 as [personList e]. cbn.
      destruct (Encode _ _). reflexivity.
    + exists (set_ID (json_Decode (Body r)) id). split; [| split; reflexivity].
      cbn. step_all.
      cbn in r1. destruct r1 as [personList e]. cbn.
      destruct (Encode _ _). reflexivity.
    + cbn. step_all.
      cbn in r1. destruct r1 as [personList e]. cbn.
      destruct (Encode _ _). reflexivity.
Qed.

Example create_takes_the_path_id :
  events (logged (run (scripted (all_fine "acme"))
                    (CreatePerson (fun _ => {| ID := 9; Name := "Grace" |})
                       (newWriter None) (bearer "t" "5" "{id:9,name:Grace}")) tt))
  = [Create {| ID := 5; Name := "Grace" |}; Find].
Proof. reflexivity. Qed.

(** ** The storage backend: transactions *)

Section BackendFacts.

Variable E : Engine.
Variable verify : string -> string -> Token * option string.

Local Abbreviation B := (backend E verify).








(** *** Steps of the backend *)

Lemma with_tx_same (c : Conn E) : with_tx c (tx c) = c.
Proof. destruct c; reflexivity. Qed.


Lemma step_aborted (e : Event) (c : Conn E) (t : Tx E) :
  tx c = Some t -> aborted t = true -> is_scope e = false ->
  backend_step E verify e c = (c, refused verify e ErrAborted).
Proof.
  intros Ht Ha He. destruct e; try discriminate; cbn; rewrite ?Ht, ?Ha; reflexivity.
Qed.

Lemma step_open (e : Event) (c : Conn E) (t : Tx E) :
  tx c = Some t -> aborted t = false -> is_scope e = false ->
  backend_step E verify e c
  = (with_tx c (Some (statement E verify e t).1), (statement E verify e t).2).
Proof.
  intros Ht Ha He. destruct e; try discriminate; cbn; rewrite ?Ht, ?Ha.
  - rewrite <- Ht, with_tx_same. reflexivity.
  - destruct (exec E sql t); reflexivity.
  - destruct (automigrate E t); reflexivity.
  - destruct (people E t); reflexivity.
  - destruct (people E t); reflexivity.
  - destruct (mutate E _ t); reflexivity.
  - destruct (mutate E _ t); reflexivity.
  - destruct (mutate E _ t); reflexivity.
Qed.

(** *** Provisioning *)

Lemma exec_create (tenant : string) (t : Tx E) :
  exec E ("create schema if not exists " +:+ tenant) t
  = match ident E tenant with
    | Some n => (create_schema E n t, None)
    | None => (abort t, Some ErrStatement)
    end.
Proof. reflexivity. Qed.

Lemma exec_search_path (tenant : string) (t : Tx E) :
  exec E ("set search_path to " +:+ tenant) t
  = match ident E tenant with
    | Some n => (set_search_path E n t, None)
    | None => (abort t, Some ErrStatement)
    end.
Proof. reflexivity. Qed.

Lemma create_schema_aborted (n : string) (t : Tx E) :
  aborted (create_schema E n t) = aborted t.
Proof. unfold create_schema. destruct (view t !! n); reflexivity. Qed.

Lemma create_schema_lookup (n : string) (t : Tx E) :
  view (create_schema E n t) !! n = Some (default None (view t !! n)).
Proof.
  unfold create_schema. destruct (view t !! n) as [x |] eqn:Hn; cbn.
  - exact Hn.
  - apply lookup_insert_eq.
Qed.

Lemma migrated_aborted (n : string) (t : Tx E) : aborted (migrated n t) = aborted t.
Proof.
  unfold migrated, automigrate. cbn.
  pose proof (create_schema_lookup n t) as Hl.
  pose proof (create_schema_aborted n t) as Ha.
  destruct (view (create_schema E n t) !! n) as [[tb |] |]; cbn; congruence.
Qed.

Lemma migrated_path (n : string) (t : Tx E) : path (migrated n t) = n.
Proof.
  unfold migrated, automigrate. cbn.
  pose proof (create_schema_lookup n t) as Hl.
  destruct (view (create_schema E n t) !! n) as [[tb |] |]; cbn; congruence.
Qed.

(** After provisioning, the schema holds the table it held before, or a
    new one. *)
Lemma migrated_lookup (n : string) (t : Tx E) :
  view (migrated n t) !! n
  = Some (Some (default (new_table E) (mjoin (view t !! n)))).
Proof.
  unfold migrated, automigrate. cbn.
  pose proof (create_schema_lookup n t) as Hl.
  destruct (view (create_schema E n t) !! n) as [[tb |] |] eqn:Hc; cbn.
  - rewrite Hc. destruct (view t !! n) as [[tb' |] |]; cbn in *; congruence.
  - rewrite lookup_insert_eq. destruct (view t !! n) as [[tb' |] |]; cbn in *; congruence.
  - discriminate.
Qed.

(** Provisioning touches no other schema. *)
Lemma migrated_frame (n m : string) (t : Tx E) :
  m <> n -> view (migrated n t) !! m = view t !! m.
Proof.
  intros Hm. unfold migrated, automigrate. cbn.
  assert (Hc : view (create_schema E n t) !! m = view t !! m).
  { unfold create_schema. destruct (view t !! n); cbn; [reflexivity |].
    apply lookup_insert_ne. congruence. }
  destruct (view (create_schema E n t) !! n) as [[tb |] |]; cbn; try exact Hc.
  rewrite lookup_insert_ne by congruence. exact Hc.
Qed.




Lemma run_provision_open (tenant : string) (c : Conn E) (t : Tx E) :
  tx c = Some t -> aborted t = false ->
  final (run B (provision tenant) c)
  = with_tx c (Some match ident E tenant with
                    | Some n => migrated n t
                    | None => abort t
                    end).
Proof.
  intros Ht Ha. unfold provision, final. cbn -[backend_step].
  rewrite (step_open _ c t) by (exact Ht || exact Ha || reflexivity).
  cbn [statement fst snd]. rewrite exec_create.
  destruct (ident E tenant) as [n |] eqn:Hn; cbn [fst snd].
  - rewrite (step_open _ _ (create_schema E n t))
      by (reflexivity || (rewrite create_schema_aborted; exact Ha)).
    cbn [statement fst snd]. rewrite exec_search_path, Hn. cbn [fst snd].
    rewrite (step_open _ _ (set_search_path E n (create_schema E n t)))
      by (reflexivity || (cbn; rewrite create_schema_aborted; exact Ha)).
    cbn [statement fst snd]. unfold migrated.
    destruct (automigrate E _); reflexivity.
  - rewrite (step_aborted _ _ (abort t)) by reflexivity. cbn -[backend_step].
    rewrite (step_aborted _ _ (abort t)) by reflexivity. reflexivity.
Qed.


(** The transaction a request of [tenant] works in. *)
Lemma entered_backend (tenant : string) (c : Conn E) :
  let t0 := {| view := stored c; path := session_path c; aborted := false |} in
  entered B tenant c
  = with_tx c (Some match ident E tenant with
                    | Some n => migrated n t0
                    | None => abort t0
                    end).
Proof.
  intros t0. unfold entered. rewrite run_bind.
  change (run B (call Begin) c)
    with ((None : option error), with_tx c (Some t0), [entry Begin (None : reply Begin)]).
  cbv beta iota zeta.
  pose proof (run_provision_open tenant (with_tx c (Some t0)) t0 eq_refl eq_refl) as H.
  destruct (run B (provision tenant) (with_tx c (Some t0))) as [[u c1] l1].
  unfold final in *. cbn [fst snd] in *. subst c1. reflexivity.
Qed.



End BackendFacts.


(** ** The storage backend: one schema per request *)

Section Isolation.

Variable E : Engine.
Variable verify : string -> string -> Token * option string.
Variable json_Decode : string -> Person.

Local Abbreviation B := (backend E verify).

Lemma with_tx_id (c : Conn E) (t : Tx E) : tx c = Some t -> with_tx c (Some t) = c.
Proof. intros <-. destruct c; reflexivity. Qed.

Lemma people_same (n : string) (t1 t2 : Tx E) :
  path t1 = n -> path t2 = n -> view t1 !! n = view t2 !! n ->
  people E t1 = people E t2.
Proof. intros H1 H2 Hv. unfold people. rewrite H1, H2, Hv. reflexivity. Qed.

Lemma same_schema_abort (n : string) (t1 t2 : Tx E) :
  same_schema n (abort t1) (abort t2).
Proof. split; [reflexivity | discriminate]. Qed.

Lemma mutate_same (n : string) (f : Table E -> option (Table E)) (t1 t2 : Tx E) :
  aborted t1 = false -> same_schema n t1 t2 ->
  (mutate E f t1).2 = (mutate E f t2).2
  /\ same_schema n (mutate E f t1).1 (mutate E f t2).1.
Proof.
  intros Ha [Hab Hs]. destruct (Hs Ha) as (H1 & H2 & Hv).
  unfold mutate. rewrite (people_same n t1 t2 H1 H2 Hv).
  destruct (people E t2) as [tb |]; [| split; [reflexivity | apply same_schema_abort]].
  destruct (f tb) as [tb' |]; [| split; [reflexivity | apply same_schema_abort]].
  split; [reflexivity |]. split; [exact Hab |]. cbn. intros _.
  rewrite H1, H2, !lookup_insert_eq. auto.
Qed.

(** An entity call answers from the [people] table of the search path
    alone. *)
Lemma entity_statement_same (n : string) (e : Event) (t1 t2 : Tx E) :
  is_entity e = true -> aborted t1 = false -> same_schema n t1 t2 ->
  (statement E verify e t1).2 = (statement E verify e t2).2
  /\ same_schema n (statement E verify e t1).1 (statement E verify e t2).1.
Proof.
  intros He Ha Hs. pose proof Hs as [Hab Hs']. destruct (Hs' Ha) as (H1 & H2 & Hv).
  destruct e; try discriminate; cbn [statement].
  - rewrite (people_same n t1 t2 H1 H2 Hv).
    destruct (people E t2); split; try reflexivity; try exact Hs.
    apply same_schema_abort.
  - rewrite (people_same n t1 t2 H1 H2 Hv).
    destruct (people E t2); split; try reflexivity; try exact Hs.
    apply same_schema_abort.
  - destruct (mutate_same n (insert E person) t1 t2 Ha Hs) as [Hr Ht].
    split; [cbn in *; rewrite Hr; reflexivity | exact Ht].
  - destruct (mutate_same n (remove E person) t1 t2 Ha Hs) as [Hr Ht].
    split; [cbn in *; rewrite Hr; reflexivity | exact Ht].
  - destruct (mutate_same n (upsert E person) t1 t2 Ha Hs) as [Hr Ht].
    split; [cbn in *; rewrite Hr; reflexivity | exact Ht].
Qed.

Lemma entity_step_same (n : string) (e : Event) (c1 c2 : Conn E) (t1 t2 : Tx E) :
  is_entity e = true -> tx c1 = Some t1 -> tx c2 = Some t2 -> same_schema n t1 t2 ->
  (backend_step E verify e c1).2 = (backend_step E verify e c2).2
  /\ exists t1' t2',
      (backend_step E verify e c1).1 = with_tx c1 (Some t1')
      /\ (backend_step E verify e c2).1 = with_tx c2 (Some t2')
      /\ same_schema n t1' t2'.
Proof.
  intros He H1 H2 Hs. pose proof (entity_not_scope e He) as Hsc.
  destruct (aborted t1) eqn:Ha1.
  - assert (Ha2 : aborted t2 = true) by (destruct Hs as [<- _]; exact Ha1).
    rewrite (step_aborted E verify e c1 t1 H1 Ha1 Hsc).
    rewrite (step_aborted E verify e c2 t2 H2 Ha2 Hsc).
    split; [reflexivity |]. exists t1, t2. cbn [fst].
    rewrite (with_tx_id c1 t1 H1), (with_tx_id c2 t2 H2). auto.
  - assert (Ha2 : aborted t2 = false) by (destruct Hs as [<- _]; exact Ha1).
    rewrite (step_open E verify e c1 t1 H1 Ha1 Hsc).
    rewrite (step_open E verify e c2 t2 H2 Ha2 Hsc).
    destruct (entity_statement_same n e t1 t2 He Ha1 Hs) as [Hr Ht].
    split; [exact Hr |]. eauto.
Qed.

(** A program of entity calls cannot tell apart two connections whose
    transactions agree on the schema of the search path. *)
Lemma run_entity_same (n : string) {A : Type} (p : Prog A) :
  uses is_entity p ->
  forall (c1 c2 : Conn E) (t1 t2 : Tx E),
    tx c1 = Some t1 -> tx c2 = Some t2 -> same_schema n t1 t2 ->
    outcome (run B p c1) = outcome (run B p c2)
    /\ exists t1' t2',
        final (run B p c1) = with_tx c1 (Some t1')
        /\ final (run B p c2) = with_tx c2 (Some t2')
        /\ same_schema n t1' t2'.
Proof.
  induction 1 as [a | e k He Hk IH]; intros c1 c2 t1 t2 H1 H2 Hs.
  - split; [reflexivity |]. exists t1, t2. unfold final. cbn [run fst snd].
    rewrite (with_tx_id c1 t1 H1), (with_tx_id c2 t2 H2). auto.
  - destruct (entity_step_same n e c1 c2 t1 t2 He H1 H2 Hs)
      as (Hr & t1' & t2' & E1 & E2 & Hs').
    cbn [run step backend].
    destruct (backend_step E verify e c1) as [d1 r1].
    destruct (backend_step E verify e c2) as [d2 r2].
    cbn [fst snd] in *. subst r2 d1 d2.
    destruct (IH r1 (with_tx c1 (Some t1')) (with_tx c2 (Some t2')) t1' t2'
                eq_refl eq_refl Hs') as (Ho & u1 & u2 & F1 & F2 & Hu).
    destruct (run B (k r1) (with_tx c1 (Some t1'))) as [[a1 f1] l1].
    destruct (run B (k r1) (with_tx c2 (Some t2'))) as [[a2 f2] l2].
    unfold outcome, final in *. cbn [fst snd] in *. subst.
    split; [reflexivity |]. exists u1, u2. auto.
Qed.

Lemma continues_refl (t : Tx E) : continues t t.
Proof. repeat split; auto. Qed.

Lemma continues_trans (t t' t'' : Tx E) :
  continues t t' -> continues t' t'' -> continues t t''.
Proof.
  intros (P1 & A1 & V1) (P2 & A2 & V2). repeat split.
  - congruence.
  - auto.
  - intros m Hm. rewrite V2 by congruence. apply V1, Hm.
Qed.

Lemma continues_abort (t : Tx E) : continues t (abort t).
Proof. repeat split; auto. Qed.

Lemma mutate_continues (f : Table E -> option (Table E)) (t : Tx E) :
  continues t (mutate E f t).1.
Proof.
  unfold mutate. destruct (people E t) as [tb |]; [| apply continues_abort].
  destruct (f tb) as [tb' |]; [| apply continues_abort].
  repeat split; auto. intros m Hm. cbn. apply lookup_insert_ne. congruence.
Qed.

(** An entity call stays within the schema of the search path. *)
Lemma entity_statement_continues (e : Event) (t : Tx E) :
  is_entity e = true -> continues t (statement E verify e t).1.
Proof.
  intros He. destruct e; try discriminate; cbn [statement].
  - destruct (people E t); [apply continues_refl | apply continues_abort].
  - destruct (people E t); [apply continues_refl | apply continues_abort].
  - apply mutate_continues.
  - apply mutate_continues.
  - apply mutate_continues.
Qed.

Lemma run_entity_continues {A : Type} (p : Prog A) :
  uses is_entity p ->
  forall (c : Conn E) (t : Tx E),
    tx c = Some t ->
    exists t', final (run B p c) = with_tx c (Some t') /\ continues t t'.
Proof.
  induction 1 as [a | e k He Hk IH]; intros c t Ht.
  - exists t. split; [| apply continues_refl]. unfold final. cbn [run fst snd].
    rewrite (with_tx_id c t Ht). reflexivity.
  - pose proof (entity_not_scope e He) as Hsc.
    assert (Hstep : exists t1,
               (backend_step E verify e c).1 = with_tx c (Some t1) /\ continues t t1).
    { destruct (aborted t) eqn:Ha.
      - rewrite (step_aborted E verify e c t Ht Ha Hsc). exists t.
        split; [| apply continues_refl]. cbn [fst]. rewrite (with_tx_id c t Ht). reflexivity.
      - rewrite (step_open E verify e c t Ht Ha Hsc). eexists. split; [reflexivity |].
        apply entity_statement_continues, He. }
    destruct Hstep as (t1 & E1 & C1).
    cbn [run step backend].
    destruct (backend_step E verify e c) as [d r]. cbn [fst] in E1. subst d.
    destruct (IH r (with_tx c (Some t1)) t1 eq_refl) as (t2 & F & C2).
    destruct (run B (k r) (with_tx c (Some t1))) as [[a f] l].
    unfold final in *. cbn [fst snd] in *. subst f.
    exists t2. split; [reflexivity |]. eapply continues_trans; eassumption.
Qed.

(** *** One request *)

Lemma finish_backend (err : option error) (c : Conn E) (t : Tx E) :
  tx c = Some t ->
  final (run B (finish err) c)
  = match err with
    | None =>
        if aborted t then with_tx c None
        else {| stored := view t; session_path := path t; tx := None |}
    | Some _ => with_tx c None
    end.
Proof.
  intros Ht. unfold final. destruct err as [e |]; cbn; rewrite Ht; cbn.
  - reflexivity.
  - destruct (aborted t); reflexivity.
Qed.

(** The shape of every request that reaches [prepare] with an entity
    handler: the transaction the handler leaves continues the provisioned
    one, and [finish] decides what is stored. *)
Lemma prepare_backend (h : handler) (w : ResponseWriter) (r : Request)
    (tenant : string) (c : Conn E) :
  uses is_entity (h w r) ->
  exists t,
    continues (provisioned tenant c) t
    /\ final (run B (h w r) (entered B tenant c)) = with_tx c (Some t)
    /\ final (run B (prepare h w r tenant) c)
       = match (outcome (run B (h w r) (entered B tenant c))).2 with
         | None =>
             if aborted t then with_tx c None
             else {| stored := view t; session_path := path t; tx := None |}
         | Some _ => with_tx c None
         end
    /\ outcome (run B (prepare h w r tenant) c)
       = Some (outcome (run B (h w r) (entered B tenant c))).1.
Proof.
  intros Hu. rewrite run_prepare by reflexivity. cbn zeta.
  pose proof (entered_backend E verify tenant c) as He. cbn zeta in He.
  fold (begun c) in He. fold (provisioned tenant c) in He.
  destruct (run_entity_continues (h w r) Hu (entered B tenant c) (provisioned tenant c))
    as (t & F & C).
  { rewrite He. reflexivity. }
  exists t. split; [exact C |].
  replace (with_tx (entered B tenant c) (Some t)) with (with_tx c (Some t)) in F
    by (rewrite He; reflexivity).
  split; [exact F |]. split; [| reflexivity].
  unfold final at 1. cbn [fst snd].
  rewrite (finish_backend _ _ t) by (rewrite F; reflexivity).
  rewrite F. destruct (outcome _).2; try destruct (aborted t); reflexivity.
Qed.

Lemma prepare_closes (h : handler) (w : ResponseWriter) (r : Request)
    (tenant : string) (c : Conn E) :
  uses is_entity (h w r) ->
  tx (final (run B (prepare h w r tenant) c)) = None.
Proof.
  intros Hu. destruct (prepare_backend h w r tenant c Hu) as (t & _ & _ & -> & _).
  destruct (outcome _).2; try destruct (aborted t); reflexivity.
Qed.

(** A request leaves every schema but its own as it was. *)
Lemma prepare_frame (h : handler) (w : ResponseWriter) (r : Request)
    (tenant : string) (c : Conn E) (m : string) :
  uses is_entity (h w r) -> ident E tenant <> Some m ->
  stored (final (run B (prepare h w r tenant) c)) !! m = stored c !! m.
Proof.
  intros Hu Hm.
  destruct (prepare_backend h w r tenant c Hu) as (t & (P & A & V) & _ & -> & _).
  destruct (outcome _).2; [reflexivity |].
  destruct (aborted t) eqn:Ha; [reflexivity |]. cbn.
  unfold provisioned in *. destruct (ident E tenant) as [n |] eqn:Hn.
  - rewrite migrated_path in V. rewrite V by congruence.
    apply migrated_frame. congruence.
  - specialize (A eq_refl). congruence.
Qed.

Lemma provisioned_same (tenant n : string) (c1 c2 : Conn E) :
  (ident E tenant = Some n -> stored c1 !! n = stored c2 !! n) ->
  (ident E tenant = None \/ ident E tenant = Some n) ->
  same_schema n (provisioned tenant c1) (provisioned tenant c2).
Proof.
  intros Hs Hi. unfold provisioned. destruct (ident E tenant) as [n' |] eqn:Hn.
  - destruct Hi as [Hi | Hi]; [discriminate |]. inversion Hi; subst n'.
    split; [rewrite !migrated_aborted; reflexivity |]. intros _.
    rewrite !migrated_path, !migrated_lookup. cbn. rewrite (Hs eq_refl). auto.
  - apply same_schema_abort.
Qed.

(** What a request answers and stores in its schema depends on that
    schema alone. *)
Lemma prepare_local (h : handler) (w : ResponseWriter) (r : Request)
    (tenant n : string) (c1 c2 : Conn E) :
  uses is_entity (h w r) ->
  (ident E tenant = None \/ ident E tenant = Some n) ->
  stored c1 !! n = stored c2 !! n ->
  outcome (run B (prepare h w r tenant) c1) = outcome (run B (prepare h w r tenant) c2)
  /\ stored (final (run B (prepare h w r tenant) c1)) !! n
     = stored (final (run B (prepare h w r tenant) c2)) !! n.
Proof.
  intros Hu Hi Hs.
  destruct (prepare_backend h w r tenant c1 Hu) as (t1 & _ & F1 & -> & ->).
  destruct (prepare_backend h w r tenant c2 Hu) as (t2 & _ & F2 & -> & ->).
  pose proof (entered_backend E verify tenant c1) as E1.
  pose proof (entered_backend E verify tenant c2) as E2.
  cbn zeta in E1, E2. fold (begun c1) in E1. fold (begun c2) in E2.
  fold (provisioned tenant c1) in E1. fold (provisioned tenant c2) in E2.
  destruct (run_entity_same n (h w r) Hu
              (entered B tenant c1) (entered B tenant c2)
              (provisioned tenant c1) (provisioned tenant c2))
    as (Ho & u1 & u2 & G1 & G2 & Hsame).
  { rewrite E1. reflexivity. }
  { rewrite E2. reflexivity. }
  { apply provisioned_same; auto. }
  replace (with_tx (entered B tenant c1) (Some u1)) with (with_tx c1 (Some u1)) in G1
    by (rewrite E1; reflexivity).
  replace (with_tx (entered B tenant c2) (Some u2)) with (with_tx c2 (Some u2)) in G2
    by (rewrite E2; reflexivity).
  rewrite F1 in G1. rewrite F2 in G2.
  assert (t1 = u1) by (inversion G1; reflexivity).
  assert (t2 = u2) by (inversion G2; reflexivity). subst u1 u2.
  rewrite Ho. split; [reflexivity |].
  destruct Hsame as [Ha Hv].
  destruct (outcome _).2; [exact Hs |].
  rewrite <- Ha. destruct (aborted t1) eqn:Ha1; [exact Hs |]. cbn.
  apply Hv. reflexivity.
Qed.

(** *** Authorization in front of it *)

Local Abbreviation serve1 := (serve E verify json_Decode).

Lemma serve_unauthorized (a : Arrival) :
  tenant_of verify (request a) = None ->
  exists w, forall c, outcome (serve1 a c) = w /\ final (serve1 a c) = c.
Proof.
  unfold tenant_of, serve, authorize.
  set (w := newWriter (client_fault a)).
  set (header := Header_Get (request a) "Authorization").
  destruct (isValidAuthorizationHeader header).
  - destruct (verify _ _) as [token [e |]] eqn:Hp.
    + intros _. exists (Some (http_Error w ("Token is not valid: " +:+ e) 401)). intros c.
      rewrite run_bind. unfold call. cbn [run step backend backend_step].
      rewrite Hp. split; reflexivity.
    + destruct (Valid token) eqn:Ht; [discriminate |].
      intros _. exists (Some (http_Error w "Token is not valid or is expired" 401)).
      intros c.
      rewrite run_bind. unfold call. cbn [run step backend backend_step].
      rewrite Hp. cbn -[http_Error]. rewrite Ht. split; reflexivity.
  - intros _.
    exists (Some (http_Error w ("Invalid authorization header: " +:+ header) 401)).
    intros c. split; reflexivity.
Qed.

Lemma serve_authorized (a : Arrival) (c : Conn E) (tenant : string) :
  tenant_of verify (request a) = Some tenant ->
  let y := run B (prepare (route_handler json_Decode (route a))
                    (newWriter (client_fault a)) (request a) tenant) c in
  outcome (serve1 a c) = outcome y /\ final (serve1 a c) = final y.
Proof.
  intros H y. unfold tenant_of in H.
  destruct (isValidAuthorizationHeader _) eqn:Hv; [| discriminate].
  destruct (verify _ _) as [token [e |]] eqn:Hp; [discriminate |].
  destruct (Valid token) eqn:Ht; [| discriminate].
  inversion H; subst tenant. unfold serve.
  rewrite (authorize_verified B _ _ (request a) c c token Hv); [split; reflexivity | | exact Ht].
  cbn [step backend backend_step]. rewrite Hp. reflexivity.
Qed.

Lemma serve_closes (a : Arrival) (c : Conn E) :
  tx c = None -> tx (final (serve1 a c)) = None.
Proof.
  intros Hc. destruct (tenant_of verify (request a)) as [tenant |] eqn:Ht.
  - destruct (serve_authorized a c tenant Ht) as [_ ->].
    apply prepare_closes, route_handler_entity.
  - destruct (serve_unauthorized a Ht) as (w & Hw).
    destruct (Hw c) as [_ ->]. exact Hc.
Qed.

(** A request changes no schema but the one its tenant claim names. *)
Lemma serve_frame (a : Arrival) (c : Conn E) (n : string) :
  schema_of E verify (request a) <> Some n ->
  stored (final (serve1 a c)) !! n = stored c !! n.
Proof.
  unfold schema_of. intros Hn.
  destruct (tenant_of verify (request a)) as [tenant |] eqn:Ht.
  - destruct (serve_authorized a c tenant Ht) as [_ ->].
    apply prepare_frame; [apply route_handler_entity | exact Hn].
  - destruct (serve_unauthorized a Ht) as (w & Hw).
    destruct (Hw c) as [_ ->]. reflexivity.
Qed.

(** The response to a request, and what it stores in its schema, depend
    on the stored schemas through that schema alone. *)
Lemma serve_local (a : Arrival) (c1 c2 : Conn E) (n : string) :
  schema_of E verify (request a) = Some n ->
  stored c1 !! n = stored c2 !! n ->
  outcome (serve1 a c1) = outcome (serve1 a c2)
  /\ stored (final (serve1 a c1)) !! n = stored (final (serve1 a c2)) !! n.
Proof.
  unfold schema_of. intros Hn Hs.
  destruct (tenant_of verify (request a)) as [tenant |] eqn:Ht; [| discriminate].
  destruct (serve_authorized a c1 tenant Ht) as [-> ->].
  destruct (serve_authorized a c2 tenant Ht) as [-> ->].
  apply prepare_local; [apply route_handler_entity | right; exact Hn | exact Hs].
Qed.

(** *** A sequence of requests *)

Lemma isolation_between_schemas (n : string) (arrivals : list Arrival) :
  forall c1 c2 : Conn E,
    tx c1 = None -> tx c2 = None -> stored c1 !! n = stored c2 !! n ->
    responses_to E verify json_Decode (in_schema E verify n) arrivals c1
    = serve_all E verify json_Decode (List.filter (in_schema E verify n) arrivals) c2.
Proof.
  induction arrivals as [| a rest IH]; intros c1 c2 H1 H2 Hs; [reflexivity |].
  cbn [responses_to List.filter].
  destruct (in_schema E verify n a) eqn:Ha; unfold in_schema in Ha.
  - apply bool_decide_eq_true in Ha.
    destruct (serve_local a c1 c2 n Ha Hs) as [Ho Hf].
    cbn [serve_all]. rewrite Ho. f_equal.
    apply IH; [apply serve_closes, H1 | apply serve_closes, H2 | exact Hf].
  - apply bool_decide_eq_false in Ha.
    apply IH; [apply serve_closes, H1 | exact H2 |].
    rewrite serve_frame by exact Ha. exact Hs.
Qed.

End Isolation.

(** C1, as the code has it.  Isolation is between schemas, for tenant
    claims that are identifiers.  In every sequence of requests served one
    after the other in which each tenant claim that passes [authorize] is
    read by the backend as one identifier, the responses to the requests
    whose claim names schema [n] are exactly the responses they would get
    if no other request had been made: they observe only what requests
    naming [n] have written, and nothing written through a claim that
    names another schema is visible to them. *)
Theorem tenant_isolation (E : Engine) (verify : string -> string -> Token * option string)
    (json_Decode : string -> Person) (arrivals : list Arrival)
    (db : gmap string (option (Table E))) (sp n : string) :
  forallb (identified E verify) arrivals = true ->
  responses_to E verify json_Decode (in_schema E verify n) arrivals (idle db sp)
  = serve_all E verify json_Decode (List.filter (in_schema E verify n) arrivals) (idle db sp).
Proof.
  intros _. apply isolation_between_schemas; reflexivity.
Qed.

Lemma tenant_isolation_witness :
  let arrivals :=
    [ {| route := POST_person; request := bearer "acme" "5" "Grace"; client_fault := None |};
      {| route := POST_person; request := bearer "other" "5" "Ada"; client_fault := None |};
      {| route := GET_people; request := bearer "" "" ""; client_fault := None |};
      {| route := GET_people; request := bearer "other" "" ""; client_fault := None |} ] in
  responses_to rows_engine open_verifier name_decoder
    (in_schema rows_engine open_verifier "other") arrivals (idle ∅ "public")
  = serve_all rows_engine open_verifier name_decoder
      (List.filter (in_schema rows_engine open_verifier "other") arrivals) (idle ∅ "public").
Proof.
  intros arrivals.
  apply (tenant_isolation rows_engine open_verifier name_decoder arrivals ∅ "public" "other").
  vm_compute. reflexivity.
Defined.

Lemma responses_to_ext (E : Engine) (verify : string -> string -> Token * option string)
    (json_Decode : string -> Person) (keep keep' : Arrival -> bool)
    (arrivals : list Arrival) :
  (forall a, In a arrivals -> keep a = keep' a) ->
  forall c, responses_to E verify json_Decode keep arrivals c
            = responses_to E verify json_Decode keep' arrivals c.
Proof.
  induction arrivals as [| a rest IH]; intros Hk c; [reflexivity |].
  cbn [responses_to]. rewrite (Hk a) by (left; reflexivity).
  rewrite IH by (intros b Hb; apply Hk; right; exact Hb). reflexivity.
Qed.

(** Where no other claim in the sequence names the schema of [tenant],
    isolation is isolation of that tenant. *)
Lemma isolation_of_unaliased_tenant (E : Engine)
    (verify : string -> string -> Token * option string)
    (json_Decode : string -> Person) (arrivals : list Arrival)
    (db : gmap string (option (Table E))) (sp tenant n : string) :
  forallb (identified E verify) arrivals = true ->
  ident E tenant = Some n ->
  (forall a, In a arrivals ->
             schema_of E verify (request a) = Some n ->
             tenant_of verify (request a) = Some tenant) ->
  responses_to E verify json_Decode (of_tenant verify tenant) arrivals (idle db sp)
  = serve_all E verify json_Decode (List.filter (of_tenant verify tenant) arrivals) (idle db sp).
Proof.
  intros _ Hn Hal.
  assert (Hk : forall a, In a arrivals -> of_tenant verify tenant a = in_schema E verify n a).
  { intros a Ha. unfold of_tenant, in_schema.
    destruct (bool_decide (tenant_of verify (request a) = Some tenant)) eqn:Ht.
    - apply bool_decide_eq_true in Ht. symmetry. apply bool_decide_eq_true.
      unfold schema_of. rewrite Ht. exact Hn.
    - apply bool_decide_eq_false in Ht. symmetry. apply bool_decide_eq_false.
      intros Hs. apply Ht, Hal; assumption. }
  rewrite (responses_to_ext E verify json_Decode _ _ arrivals Hk).
  rewrite (List.filter_ext_in _ _ arrivals Hk).
  apply isolation_between_schemas; reflexivity.
Qed.

(** C1 as stated fails: the claims [acme] and [ACME] are two tenants, and
    PostgreSQL folds both identifiers to the schema [acme].  The person
    created under [acme] is listed to [ACME], whose own requests, served
    alone, list nothing. *)
Lemma distinct_tenants_share_a_schema :
  let create := {| route := POST_person; request := bearer "acme" "5" "Grace";
                   client_fault := None |} in
  let list := {| route := GET_people; request := bearer "ACME" "" "";
                 client_fault := None |} in
  let serving := responses_to rows_engine open_verifier name_decoder in
  tenant_of open_verifier (request create) = Some "acme"
  /\ tenant_of open_verifier (request list) = Some "ACME"
  /\ "acme" <> "ACME"
  /\ forallb (identified rows_engine open_verifier) [create; list] = true
  /\ map (fmap body)
       (serving (of_tenant open_verifier "ACME") [create; list] (idle ∅ "public"))
     = [Some [JSONPeople [{| ID := 5; Name := "Grace" |}]]]
  /\ map (fmap body) (serving (of_tenant open_verifier "ACME") [list] (idle ∅ "public"))
     = [Some [JSONPeople []]].
Proof.
  cbn zeta. repeat split; try (vm_compute; reflexivity). discriminate.
Qed.

(** ** Sample runs on the row-list engine *)

(** A person created under [acme] comes back in the list; another tenant
    asking for the same id gets the zero person. *)
Example create_then_get_elsewhere :
  map (fmap body)
    (serve_all rows_engine open_verifier name_decoder
       [ {| route := POST_person; request := bearer "acme" "5" "Grace"; client_fault := None |};
         {| route := GET_person; request := bearer "other" "5" ""; client_fault := None |};
         {| route := GET_people; request := bearer "acme" "" ""; client_fault := None |} ]
       (idle ∅ "public"))
  = [ Some [JSONPeople [{| ID := 5; Name := "Grace" |}]];
      Some [JSONPerson zeroPerson];
      Some [JSONPeople [{| ID := 5; Name := "Grace" |}]] ].
Proof. vm_compute. reflexivity. Qed.

(** [GET /person/abc] through [authorize] on the backend: served with
    nothing written. *)
Example get_person_abc_served :
  let x := serve rows_engine open_verifier name_decoder
             {| route := GET_person; request := bearer "acme" "abc" ""; client_fault := None |}
             (idle ∅ "public") in
  status <$> outcome x = Some None /\ body <$> outcome x = Some []
  /\ stored (final x) = ∅.
Proof. vm_compute. repeat split; reflexivity. Qed.

(** A second [POST] of the same id fails in the database; the handler does
    not notice, answers 200 with an empty list, and nothing is stored by
    the aborted transaction. *)
Example duplicate_create_is_not_reported :
  let first := {| route := POST_person; request := bearer "acme" "5" "Grace";
                  client_fault := None |} in
  let second := {| route := POST_person; request := bearer "acme" "5" "Ada";
                   client_fault := None |} in
  map (fmap (fun w => (status w, body w)))
    (serve_all rows_engine open_verifier name_decoder [first; second] (idle ∅ "public"))
  = [ Some (Some 200%Z, [JSONPeople [{| ID := 5; Name := "Grace" |}]]);
      Some (Some 200%Z, [JSONPeople []]) ].
Proof. vm_compute. reflexivity. Qed.

(** * Further properties of restService.go *)

(** ** [authorize]: what happens after the header check *)

(** X1.  The decision of [authorize] on a well-formed header, in every
    environment.  It makes one call to [ParseWithClaims]; a parse error is
    answered 401 with the message of the error, a token that is not valid
    is answered 401, and in both cases nothing else is called; only a token
    parsed without error and valid goes on, into [prepare] with its tenant
    claim. *)
Theorem authorize_decides (env : Env) (serviceHandler : handler)
    (w : ResponseWriter) (r : Request) (s : St env) :
  status w = None ->
  isValidAuthorizationHeader (Header_Get r "Authorization") = true ->
  let parse :=
    ParseWithClaims (nth 1 (SplitN (Header_Get r "Authorization") " " 2) "") jwtKey in
  let s1 := (step env parse s).1 in
  let answer : Token * option string := (step env parse s).2 in
  let x := run env (authorize serviceHandler w r) s in
  match answer.2 with
  | Some e =>
      x = (Some (http_Error w ("Token is not valid: " +:+ e) 401), s1,
           [entry parse answer])
      /\ sent_status <$> outcome x = Some 401%Z
  | None =>
      if Valid answer.1 then
        let y := run env (prepare serviceHandler w r (Tenant (Claims answer.1))) s1 in
        x = (outcome y, final y, entry parse answer :: logged y)
      else
        x = (Some (http_Error w "Token is not valid or is expired" 401), s1,
             [entry parse answer])
        /\ sent_status <$> outcome x = Some 401%Z
  end.
Proof.
  intros Hw Hv parse s1 answer x. subst x s1 answer.
  unfold authorize. rewrite Hv. fold parse.
  rewrite run_bind. unfold call. cbn [run].
  destruct (step env parse s) as [s1 [token [e |]]]; cbn -[prepare http_Error].
  - split; [reflexivity |]. unfold sent_status, outcome. cbn -[http_Error].
    rewrite http_Error_status by exact Hw. reflexivity.
  - destruct (Valid token); cbn -[prepare http_Error].
    + destruct (run env (prepare _ _ _ _) s1) as [[w' s2] l]. reflexivity.
    + split; [reflexivity |]. unfold sent_status, outcome. cbn -[http_Error].
      rewrite http_Error_status by exact Hw. reflexivity.
Qed.

Lemma authorize_decides_witness :
  let r := bearer "expired.token" "" "" in
  let env := scripted (fun e =>
    match e return reply e with
    | ParseWithClaims _ _ =>
        ({| Claims := {| UserName := "u"; Tenant := "acme" |}; Valid := false |},
         Some "token is expired by 5m")
    | e => all_fine "acme" e
    end) in
  outcome (run env (authorize ListPeople (newWriter None) r) tt)
  = Some (http_Error (newWriter None) "Token is not valid: token is expired by 5m" 401)
  /\ events (logged (run env (authorize ListPeople (newWriter None) r) tt))
     = [ParseWithClaims "expired.token" jwtKey].
Proof.
  intros r env.
  pose proof (authorize_decides env ListPeople (newWriter None) r tt eq_refl eq_refl)
    as H.
  cbn zeta in H. cbn [step scripted snd] in H. destruct H as [H _].
  rewrite H. split; reflexivity.
Defined.

Lemma Cut_Bearer (token : string) :
  Cut ("Bearer " +:+ token) " " = Some ("Bearer", token).
Proof. reflexivity. Qed.

(** X2.  The token handed to the JWT library is the header value with the
    seven bytes [Bearer ] removed and nothing else changed: further spaces
    stay in the token, and the key is always the service key. *)
Theorem bearer_token_is_passed_verbatim (env : Env) (serviceHandler : handler)
    (w : ResponseWriter) (r : Request) (s : St env) (token : string) :
  token <> "" ->
  Header_Get r "Authorization" = "Bearer " +:+ token ->
  exists rest,
    events (logged (run env (authorize serviceHandler w r) s))
    = ParseWithClaims token jwtKey :: rest.
Proof.
  intros Hne Hh.
  assert (Hv : isValidAuthorizationHeader (Header_Get r "Authorization") = true).
  { apply header_valid_iff_Bearer. exists token. split; assumption. }
  unfold authorize. rewrite Hv, Hh, SplitN_space_2, Cut_Bearer.
  cbn [nth]. rewrite run_bind. unfold call. cbn [run].
  destruct (step env (ParseWithClaims token jwtKey) s) as [s1 a].
  match goal with |- context [run env ?p s1] => destruct (run env p s1) as [[b s2] l] end.
  eexists. unfold logged, events. cbn. reflexivity.
Qed.

Lemma bearer_token_is_passed_verbatim_witness :
  exists rest,
    events (logged (run (scripted (all_fine "acme"))
                      (authorize ListPeople (newWriter None) (bearer "a b  c" "" "")) tt))
    = ParseWithClaims "a b  c" jwtKey :: rest.
Proof.
  apply (bearer_token_is_passed_verbatim (scripted (all_fine "acme")) ListPeople
           (newWriter None) (bearer "a b  c" "" "") tt "a b  c").
  - discriminate.
  - reflexivity.
Defined.

(** ** What the service can answer *)

Ltac split_replies :=
  repeat match goal with
    | x : reply _ |- _ => cbn in x; destruct x as [? ?]
    end.

Lemma Write_status (w : ResponseWriter) (v : Written) :
  status (Write w v).1 = Some (default 200%Z (status w)).
Proof. unfold Write. cbn. destruct (fault w); reflexivity. Qed.

(** A registered handler leaves the status alone or writes through
    [Encode], which sends 200 when no status was sent. *)
Lemma handler_status (json_Decode : string -> Person) (rt : Route) (env : Env)
    (w : ResponseWriter) (r : Request) (s : St env) :
  let w' := (outcome (run env (route_handler json_Decode rt w r) s)).1 in
  status w' = status w \/ status w' = Some (default 200%Z (status w)).
Proof.
  cbn zeta. destruct rt; cbn [route_handler];
    unfold ListPeople, GetPerson, CreatePerson, DeletePerson, UpdatePerson;
    try (destruct (Atoi (param r "id")) as [id [e |]]; [left; reflexivity |]);
    right; cbn; step_all; split_replies; cbn;
    unfold Encode;
    match goal with
    | |- context [Write ?a ?b] =>
        pose proof (Write_status a b) as Hs; destruct (Write a b) as [w1 e1]
    end; exact Hs.
Qed.

(** The scope calls of a request whose [Begin] failed: [Begin] alone. *)
Lemma scope_calls_without_transaction (env : Env) (tenant : string) (s : St env) :
  scope_calls (events (logged (run env (without_transaction tenant) s))) = [Begin].
Proof. rewrite without_transaction_events. reflexivity. Qed.

(** X3.  The only statuses the service ever sends are 200 and 401.  On
    every registered route and in every environment, a request that starts
    with a fresh writer and gets a response ends with status 401 written,
    status 200 written, or nothing written (which net/http sends as 200):
    no 400, 404 or 500 is produced, whatever fails.  The one request that
    gets no response is the one whose [Begin] failed: [prepare] panics, and
    [Begin] is the only scope call made. *)
Theorem service_answers_200_or_401 (env : Env) (json_Decode : string -> Person)
    (rt : Route) (w : ResponseWriter) (r : Request) (s : St env) :
  status w = None ->
  let x := run env (authorize (route_handler json_Decode rt) w r) s in
  match outcome x with
  | Some w' =>
      (status w' = None \/ status w' = Some 200%Z \/ status w' = Some 401%Z)
      /\ (sent_status w' = 200%Z \/ sent_status w' = 401%Z)
  | None => scope_calls (events (logged x)) = [Begin]
  end.
Proof.
  intros Hw x.
  assert (H : match outcome x with
              | Some w' =>
                  status w' = None \/ status w' = Some 200%Z \/ status w' = Some 401%Z
              | None => scope_calls (events (logged x)) = [Begin]
              end).
  { subst x. unfold authorize.
    destruct (isValidAuthorizationHeader _).
    - rewrite run_bind. unfold call. cbn [run].
      destruct (step env _ s) as [s1 [token [e |]]]; cbn -[prepare http_Error].
      + right; right. apply http_Error_status, Hw.
      + destruct (Valid token); cbn -[prepare http_Error].
        * destruct (begin_error env s1) as [e |] eqn:Hb.
          -- rewrite run_prepare_failed by (rewrite Hb; discriminate).
             cbn [outcome logged fst snd].
             exact (scope_calls_without_transaction env (Tenant (Claims token)) s1).
          -- rewrite run_prepare by exact Hb. cbn zeta. cbn [outcome fst].
             pose proof (handler_status json_Decode rt env w r
                           (entered env (Tenant (Claims token)) s1)) as Hh.
             cbn zeta in Hh. rewrite Hw in Hh. cbn in Hh.
             destruct Hh as [Hh | Hh]; rewrite Hh; auto.
        * right; right. apply http_Error_status, Hw.
    - right; right. apply http_Error_status, Hw. }
  destruct (outcome x) as [w' |]; [| exact H].
  split; [exact H |]. unfold sent_status.
  destruct H as [-> | [-> | ->]]; auto.
Qed.

Lemma service_answers_200_or_401_witness :
  let x := run (scripted (database_lost "acme"))
             (authorize (route_handler name_decoder POST_person)
                (newWriter None) (bearer "t" "5" "Grace")) tt in
  match outcome x with
  | Some w' =>
      (status w' = None \/ status w' = Some 200%Z \/ status w' = Some 401%Z)
      /\ (sent_status w' = 200%Z \/ sent_status w' = 401%Z)
  | None => scope_calls (events (logged x)) = [Begin]
  end.
Proof.
  exact (service_answers_200_or_401 (scripted (database_lost "acme")) name_decoder
           POST_person (newWriter None) (bearer "t" "5" "Grace") tt eq_refl).
Defined.

Lemma no_scope_events (l : list Event) :
  Forall (fun e => is_scope e = false) l -> scope_calls l = [].
Proof.
  induction 1 as [| e l He Hl IH]; [reflexivity |].
  unfold scope_calls in *. cbn. rewrite He. exact IH.
Qed.

(** X4.  Transactions are bracketed.  On every registered route and in
    every environment, the scope calls of a request that is answered are
    none at all (the request was refused), or exactly [Begin] first and one
    of [Commit] and [Rollback] last: no answered request opens two
    transactions, ends one twice, or leaves one open.  A request that is
    not answered is one whose [Begin] failed: its scope calls are [Begin]
    alone, and there is no transaction to end. *)
Theorem scope_calls_are_bracketed (env : Env) (json_Decode : string -> Person)
    (rt : Route) (w : ResponseWriter) (r : Request) (s : St env) :
  let x := run env (authorize (route_handler json_Decode rt) w r) s in
  let calls := scope_calls (events (logged x)) in
  match outcome x with
  | Some _ => calls = [] \/ calls = [Begin; Commit] \/ calls = [Begin; Rollback]
  | None => calls = [Begin]
  end.
Proof.
  cbn zeta. unfold authorize.
  destruct (isValidAuthorizationHeader _); [| left; reflexivity].
  rewrite run_bind. unfold call. cbn [run].
  destruct (step env _ s) as [s1 [token [e |]]]; cbn -[prepare http_Error];
    [left; reflexivity |].
  destruct (Valid token); cbn -[prepare http_Error]; [| left; reflexivity].
  destruct (begin_error env s1) as [e |] eqn:Hb.
  { rewrite run_prepare_failed by (rewrite Hb; discriminate).
    cbn [outcome logged fst snd].
    exact (scope_calls_without_transaction env (Tenant (Claims token)) s1). }
  pose proof (prepare_events env (route_handler json_Decode rt) w r
                (Tenant (Claims token)) s1 Hb) as Hp. cbn zeta in Hp.
  pose proof (f_equal (fun t => t.1.1)
                (run_prepare env (route_handler json_Decode rt) w r
                   (Tenant (Claims token)) s1 Hb)) as Hr.
  cbn zeta in Hr. cbn [fst] in Hr.
  destruct (run env (prepare _ _ _ _) s1) as [[w1 s2] l].
  unfold logged, outcome in Hp |- *. cbn [fst snd] in Hp, Hr |- *. subst w1.
  change (events (entry ?e ?a :: l)) with (e :: events l).
  unfold scope_calls at 1 2 3. cbn [List.filter is_scope]. fold (scope_calls (events l)).
  rewrite Hp. unfold scope_calls. rewrite !List.filter_app. cbn [List.filter is_scope app].
  fold (scope_calls (events (run env (route_handler json_Decode rt w r)
                               (entered env (Tenant (Claims token)) s1)).2)).
  rewrite no_scope_events.
  - cbn. destruct (run env _ _).1.1.2; cbn; auto.
  - eapply List.Forall_impl;
      [| exact (uses_events is_entity env _ _ (route_handler_entity json_Decode rt w r))].
    intros e0. apply entity_not_scope.
Qed.

(** ** The handlers, for every environment *)

(** X5.  [GET /people] always commits.  [ListPeople] makes one call,
    [Find], and returns no error whatever the query answers and whether or
    not the client can be written to (the error of [Encode] is dropped);
    so [prepare], once [Begin] has opened a transaction, ends every such
    request with [Commit].  When [Begin] fails, [prepare] panics before
    the handler: [ListPeople] is not called and nothing is answered. *)
Theorem ListPeople_always_commits (env : Env) (w : ResponseWriter) (r : Request)
    (tenant : string) (s : St env) :
  (outcome (run env (ListPeople w r) s)).2 = None
  /\ events (logged (run env (ListPeople w r) s)) = [Find]
  /\ match begin_error env s with
     | None =>
         events (logged (run env (prepare ListPeople w r tenant) s))
         = [Begin; Exec ("create schema if not exists " +:+ tenant);
            Exec ("set search_path to " +:+ tenant); AutoMigrate; Find; Commit]
     | Some _ =>
         outcome (run env (prepare ListPeople w r tenant) s) = None
         /\ events (logged (run env (prepare ListPeople w r tenant) s))
            = [Begin; Exec ("create schema if not exists " +:+ tenant);
               Exec ("set search_path to " +:+ tenant)]
     end.
Proof.
  assert (H : forall s', (outcome (run env (ListPeople w r) s')).2 = None
                         /\ events (logged (run env (ListPeople w r) s')) = [Find]).
  { intros s'. unfold ListPeople. cbn. step_all. split_replies. cbn.
    destruct (Encode _ _). split; reflexivity. }
  split; [apply H |]. split; [apply H |].
  destruct (begin_error env s) as [e |] eqn:Hb.
  - apply no_exit_without_transaction. rewrite Hb. discriminate.
  - rewrite prepare_events by exact Hb.
    destruct (H (entered env tenant s)) as [-> ->]. reflexivity.
Qed.

(** X6.  [GET /person/{id}] for a record that is not there.  When the id
    parses and the client can be written to, [GetPerson] makes exactly one
    call, [WhereFind id], and answers with the person found or, when none
    is found, with the zero person [{0, ""}]: it writes status 200 and
    returns no error either way, and the error of the query is not
    looked at. *)
Theorem GetPerson_answers_zero_person_when_missing (env : Env) (w : ResponseWriter)
    (r : Request) (s : St env) (id : Z) :
  Atoi (param r "id") = (id, None) ->
  fault w = None ->
  let x := run env (GetPerson w r) s in
  let found : option Person * option error := (step env (WhereFind id) s).2 in
  events (logged x) = [WhereFind id]
  /\ body (outcome x).1 = body w ++ [JSONPerson (default zeroPerson found.1)]
  /\ status (outcome x).1 = Some (default 200%Z (status w))
  /\ (outcome x).2 = None.
Proof.
  intros Ha Hf x found. subst x found. unfold GetPerson. rewrite Ha.
  cbn. destruct (step env (WhereFind id) s) as [s1 [p e]]. cbn.
  unfold Encode, Write. cbn. rewrite Hf. cbn. repeat split; reflexivity.
Qed.

Lemma GetPerson_answers_zero_person_when_missing_witness :
  let x := run (scripted (all_fine "acme"))
             (GetPerson (newWriter None) (bearer "t" "7" "")) tt in
  events (logged x) = [WhereFind 7]
  /\ body (outcome x).1 = [JSONPerson zeroPerson]
  /\ status (outcome x).1 = Some 200%Z
  /\ (outcome x).2 = None.
Proof.
  exact (GetPerson_answers_zero_person_when_missing (scripted (all_fine "acme"))
           (newWriter None) (bearer "t" "7" "") tt 7 eq_refl eq_refl).
Defined.

(** What a registered handler returns is decided by [Atoi] and by the
    write to the client alone. *)
Lemma handler_error (json_Decode : string -> Person) (rt : Route) (env : Env)
    (w : ResponseWriter) (r : Request) (s : St env) :
  (has_id_variable rt = true -> (Atoi (param r "id")).2 = None) ->
  let x := run env (route_handler json_Decode rt w r) s in
  (outcome x).2 = (if is_GET rt && negb (has_id_variable rt) then None else fault w)
  /\ status (outcome x).1 = Some (default 200%Z (status w))
  /\ (fault w <> None -> body (outcome x).1 = body w).
Proof.
  intros Ha. cbn zeta.
  destruct rt; cbn [route_handler has_id_variable is_GET andb negb] in *;
    unfold ListPeople, GetPerson, CreatePerson, DeletePerson, UpdatePerson;
    try (specialize (Ha eq_refl);
         destruct (Atoi (param r "id")) as [id [e |]]; [discriminate Ha |]);
    cbn; step_all; split_replies; cbn;
    unfold Encode, Write; cbn; destruct (fault w); cbn;
    repeat split; try reflexivity; try congruence.
Qed.

(** X7.  Database errors are never reported.  On every route, when the
    id parses (where the path has one) and the client can be written to,
    the handler returns no error and answers 200, whatever the database
    calls answered; [prepare], once [Begin] has opened a transaction, then
    ends the request with [Commit] and returns the response of the
    handler.  The failure of [Begin] itself is not reported either:
    [prepare] panics after the two [Exec] calls, and no response is
    written. *)
Theorem database_errors_are_not_reported (env : Env) (json_Decode : string -> Person)
    (rt : Route) (w : ResponseWriter) (r : Request) (tenant : string) (s : St env) :
  (has_id_variable rt = true -> (Atoi (param r "id")).2 = None) ->
  fault w = None ->
  let x := run env (route_handler json_Decode rt w r) (entered env tenant s) in
  let y := run env (prepare (route_handler json_Decode rt) w r tenant) s in
  (outcome x).2 = None
  /\ status (outcome x).1 = Some (default 200%Z (status w))
  /\ match begin_error env s with
     | None =>
         events (logged y)
         = [Begin; Exec ("create schema if not exists " +:+ tenant);
            Exec ("set search_path to " +:+ tenant); AutoMigrate]
           ++ events (logged x) ++ [Commit]
         /\ outcome y = Some (outcome x).1
     | Some _ =>
         events (logged y)
         = [Begin; Exec ("create schema if not exists " +:+ tenant);
            Exec ("set search_path to " +:+ tenant)]
         /\ outcome y = None
     end.
Proof.
  intros Ha Hf x y.
  destruct (handler_error json_Decode rt env w r (entered env tenant s) Ha)
    as (He & Hs & _).
  fold x in He, Hs. rewrite Hf in He.
  assert (He' : (outcome x).2 = None) by (destruct (_ && _) in He; exact He).
  split; [exact He' |]. split; [exact Hs |].
  destruct (begin_error env s) as [e |] eqn:Hb.
  - destruct (no_exit_without_transaction env (route_handler json_Decode rt) w r tenant s)
      as [Ho Hev]; [rewrite Hb; discriminate |].
    split; [exact Hev | exact Ho].
  - split.
    + subst y. rewrite prepare_events by exact Hb. fold x. rewrite He'. reflexivity.
    + subst y. rewrite run_prepare by exact Hb. reflexivity.
Qed.

Lemma database_errors_are_not_reported_witness :
  let env := scripted (database_lost "acme") in
  let h := route_handler name_decoder POST_person in
  let x := run env (h (newWriter None) (bearer "t" "5" "Grace")) (entered env "acme" tt) in
  let y := run env (prepare h (newWriter None) (bearer "t" "5" "Grace") "acme") tt in
  (outcome x).2 = None
  /\ status (outcome x).1 = Some 200%Z
  /\ events (logged y)
     = [Begin; Exec "create schema if not exists acme"; Exec "set search_path to acme";
        AutoMigrate]
       ++ events (logged x) ++ [Commit]
  /\ outcome y = Some (outcome x).1.
Proof.
  exact (database_errors_are_not_reported (scripted (database_lost "acme"))
           name_decoder POST_person (newWriter None) (bearer "t" "5" "Grace")
           "acme" tt (fun _ => eq_refl) eq_refl).
Defined.

(** With the connection lost after [Begin], [POST /person/5] is still
    answered 200 and committed. *)
Example create_with_database_lost :
  let x := run (scripted (database_lost "acme"))
             (prepare (route_handler name_decoder POST_person) (newWriter None)
                (bearer "t" "5" "Grace") "acme") tt in
  logged x
  = [entry Begin None;
     entry (Exec "create schema if not exists acme")
       (Some (errorString "pq: connection lost"));
     entry (Exec "set search_path to acme") (Some (errorString "pq: connection lost"));
     entry AutoMigrate (Some (errorString "pq: connection lost"));
     entry (Create {| ID := 5; Name := "Grace" |})
       (Some (errorString "pq: connection lost"));
     entry Find ([], Some (errorString "pq: connection lost"));
     entry Commit (Some (errorString "pq: connection lost"))]
  /\ status <$> outcome x = Some (Some 200%Z)
  /\ body <$> outcome x = Some [JSONPeople []].
Proof. cbn zeta. repeat split; reflexivity. Qed.

(** X8.  A response that cannot be written rolls the request back.  On
    the four routes with an id, when the id parses and the write to the
    client fails, the handler returns the error of the write with the body
    untouched, and [prepare], once [Begin] has opened a transaction, ends
    the request with [Rollback]: a person created, saved or deleted for a
    client that has gone is not kept.  When [Begin] fails, [prepare]
    panics after the two [Exec] calls and the handler is not run. *)
Theorem undelivered_response_rolls_back (env : Env) (json_Decode : string -> Person)
    (rt : Route) (w : ResponseWriter) (r : Request) (tenant : string) (s : St env)
    (e : error) :
  has_id_variable rt = true ->
  (Atoi (param r "id")).2 = None ->
  fault w = Some e ->
  let x := run env (route_handler json_Decode rt w r) (entered env tenant s) in
  let y := run env (prepare (route_handler json_Decode rt) w r tenant) s in
  (outcome x).2 = Some e
  /\ body (outcome x).1 = body w
  /\ match begin_error env s with
     | None =>
         events (logged y)
         = [Begin; Exec ("create schema if not exists " +:+ tenant);
            Exec ("set search_path to " +:+ tenant); AutoMigrate]
           ++ events (logged x) ++ [Rollback]
     | Some _ =>
         events (logged y)
         = [Begin; Exec ("create schema if not exists " +:+ tenant);
            Exec ("set search_path to " +:+ tenant)]
         /\ outcome y = None
     end.
Proof.
  intros Hid Ha Hf x y.
  destruct (handler_error json_Decode rt env w r (entered env tenant s) (fun _ => Ha))
    as (He & _ & Hb).
  fold x in He, Hb. rewrite Hid, andb_false_r, Hf in He.
  split; [exact He |]. split; [apply Hb; congruence |].
  destruct (begin_error env s) as [e0 |] eqn:Hbe.
  - destruct (no_exit_without_transaction env (route_handler json_Decode rt) w r tenant s)
      as [Ho Hev]; [rewrite Hbe; discriminate |].
    split; [exact Hev | exact Ho].
  - subst y. rewrite prepare_events by exact Hbe. fold x. rewrite He. reflexivity.
Qed.

Lemma undelivered_response_rolls_back_witness :
  let env := scripted (all_fine "acme") in
  let h := route_handler name_decoder DELETE_person in
  let w := newWriter (Some (errorString "write: broken pipe")) in
  let x := run env (h w (bearer "t" "5" "")) (entered env "acme" tt) in
  (outcome x).2 = Some (errorString "write: broken pipe")
  /\ body (outcome x).1 = []
  /\ events (logged (run env (prepare h w (bearer "t" "5" "") "acme") tt))
     = [Begin; Exec "create schema if not exists acme"; Exec "set search_path to acme";
        AutoMigrate]
       ++ events (logged x) ++ [Rollback].
Proof.
  exact (undelivered_response_rolls_back (scripted (all_fine "acme")) name_decoder
           DELETE_person (newWriter (Some (errorString "write: broken pipe")))
           (bearer "t" "5" "") "acme" tt (errorString "write: broken pipe")
           eq_refl eq_refl eq_refl).
Defined.

(** The run of a handler that changes the table: the change, then the
    list. *)
Lemma mutation_run (env : Env) (json_Decode : string -> Person) (rt : Route)
    (w : ResponseWriter) (r : Request) (s : St env) (id : Z) (m : Event) :
  Atoi (param r "id") = (id, None) ->
  mutation_of json_Decode rt r id = Some m ->
  fault w = None ->
  let x := run env (route_handler json_Decode rt w r) s in
  let s1 := (step env m s).1 in
  let listed : list Person * option error := (step env Find s1).2 in
  events (logged x) = [m; Find]
  /\ body (outcome x).1 = body w ++ [JSONPeople listed.1]
  /\ (outcome x).2 = None
  /\ final x = (step env Find s1).1.
Proof.
  intros Ha Hm Hf. cbn zeta.
  destruct rt; cbn [mutation_of] in Hm; try discriminate Hm;
    inversion Hm; subst m; cbn [route_handler];
    unfold CreatePerson, DeletePerson, UpdatePerson; rewrite Ha; cbn;
    match goal with |- context [step env ?e s] => destruct (step env e s) as [s1 r1] end;
    cbn; destruct (step env Find s1) as [s2 [l e2]]; cbn;
    unfold Encode, Write; cbn; rewrite Hf; cbn; repeat split; reflexivity.
Qed.

(** X9.  What Create, Update and Delete answer.  When the id parses and
    the client can be written to, the handler makes exactly two calls, the
    change and then [Find], and the body it writes is the list that [Find]
    returned from the state the change left: the whole collection as read
    after the change, in the same transaction, not the person sent. *)
Theorem change_answers_the_list_read_after_it (env : Env)
    (json_Decode : string -> Person) (rt : Route) (w : ResponseWriter) (r : Request)
    (s : St env) (id : Z) (m : Event) :
  Atoi (param r "id") = (id, None) ->
  mutation_of json_Decode rt r id = Some m ->
  fault w = None ->
  let x := run env (route_handler json_Decode rt w r) s in
  let s1 := (step env m s).1 in
  let listed : list Person * option error := (step env Find s1).2 in
  events (logged x) = [m; Find]
  /\ body (outcome x).1 = body w ++ [JSONPeople listed.1]
  /\ final x = (step env Find s1).1.
Proof.
  intros Ha Hm Hf. cbn zeta.
  destruct (mutation_run env json_Decode rt w r s id m Ha Hm Hf) as (H1 & H2 & _ & H4).
  auto.
Qed.

Lemma change_answers_the_list_read_after_it_witness :
  let B := backend rows_engine open_verifier in
  let c := entered B "acme" (idle ∅ "public") in
  let x := run B (route_handler name_decoder PUT_person (newWriter None)
                    (bearer "acme" "5" "Ada")) c in
  events (logged x) = [Save {| ID := 5; Name := "Ada" |}; Find]
  /\ body (outcome x).1
     = [] ++ [JSONPeople
                (step B Find (step B (Save {| ID := 5; Name := "Ada" |}) c).1).2.1]
  /\ final x = (step B Find (step B (Save {| ID := 5; Name := "Ada" |}) c).1).1.
Proof.
  exact (change_answers_the_list_read_after_it (backend rows_engine open_verifier)
           name_decoder PUT_person (newWriter None) (bearer "acme" "5" "Ada")
           (entered (backend rows_engine open_verifier) "acme" (idle ∅ "public"))
           5 (Save {| ID := 5; Name := "Ada" |}) eq_refl eq_refl eq_refl).
Defined.

Lemma ListPeople_run (env : Env) (w : ResponseWriter) (r : Request) (s : St env) :
  fault w = None ->
  let x := run env (ListPeople w r) s in
  let listed : list Person * option error := (step env Find s).2 in
  body (outcome x).1 = body w ++ [JSONPeople listed.1]
  /\ (outcome x).2 = None
  /\ final x = (step env Find s).1.
Proof.
  intros Hf. cbn zeta. unfold ListPeople. cbn.
  destruct (step env Find s) as [s1 [l e]]. cbn.
  unfold Encode, Write. cbn. rewrite Hf. cbn. repeat split; reflexivity.
Qed.

(** ** Requests on the storage backend *)

Section BackendRequests.

Variable E : Engine.
Variable verify : string -> string -> Token * option string.

Local Abbreviation B := (backend E verify).

Lemma migrated_view (n : string) (t : Tx E) :
  view (migrated n t)
  = <[n := Some (default (new_table E) (mjoin (view t !! n)))]> (view t).
Proof.
  apply map_eq. intros m. destruct (decide (m = n)) as [-> | Hm].
  - rewrite lookup_insert_eq. apply migrated_lookup.
  - rewrite lookup_insert_ne by congruence. apply migrated_frame, Hm.
Qed.

Lemma people_migrated (n : string) (c : Conn E) :
  people E (migrated n (begun c)) = Some (working_table n c).
Proof.
  unfold people. rewrite migrated_path, migrated_lookup. reflexivity.
Qed.

Lemma step_Find_open (c : Conn E) (t : Tx E) (tb : Table E) :
  tx c = Some t -> aborted t = false -> people E t = Some tb ->
  backend_step E verify Find c = (c, (select E tb, None)).
Proof.
  intros Ht Ha Hp. rewrite (step_open E verify Find c t Ht Ha eq_refl).
  cbn [statement]. rewrite Hp. cbn [fst snd].
  rewrite <- Ht, with_tx_same. reflexivity.
Qed.

(** X10.  Reading provisions.  On the backend, a [GET /people] of a tenant
    whose claim names schema [n], answered to a client that can be written
    to, stores the schema with its [people] table when one of them was
    missing and leaves an existing table as it was; every other schema is
    untouched, the list answered is the content of that table, and no
    transaction stays open. *)
Theorem listing_creates_the_schema (w : ResponseWriter) (r : Request)
    (tenant n : string) (c : Conn E) :
  ident E tenant = Some n ->
  fault w = None ->
  let x := run B (prepare ListPeople w r tenant) c in
  stored (final x) = <[n := Some (working_table n c)]> (stored c)
  /\ body <$> outcome x = Some (body w ++ [JSONPeople (select E (working_table n c))])
  /\ tx (final x) = None.
Proof.
  intros Hn Hf x. subst x. rewrite run_prepare by reflexivity. cbn zeta.
  rewrite entered_backend, Hn. fold (begun c).
  set (t := migrated n (begun c)). set (c1 := with_tx c (Some t)).
  assert (Ha : aborted t = false) by (unfold t; rewrite migrated_aborted; reflexivity).
  destruct (ListPeople_run B w r c1 Hf) as (Hb & He & Hfin). cbn zeta in *.
  change (step B Find c1) with (backend_step E verify Find c1) in Hb, Hfin.
  rewrite (step_Find_open c1 t (working_table n c) eq_refl Ha (people_migrated n c))
    in Hb, Hfin.
  cbn [fst snd] in Hb, Hfin.
  unfold final, outcome in *. cbn [fst snd] in *. rewrite He, Hfin.
  pose proof (finish_backend E verify None c1 t eq_refl) as Hc.
  unfold final in Hc. rewrite Hc, Ha. cbn [stored tx].
  split; [| split; [cbn [fmap option_fmap option_map]; rewrite Hb; reflexivity | reflexivity]].
  unfold t. rewrite migrated_view. reflexivity.
Qed.

Lemma step_change_open (c : Conn E) (t : Tx E) (tb : Table E) (m : Event) :
  tx c = Some t -> aborted t = false -> people E t = Some tb ->
  (exists p, m = Create p \/ m = Save p \/ m = Delete p) ->
  (backend_step E verify m c).1
  = with_tx c (Some match apply_mutation E m tb with
                    | Some tb' => with_view E t (<[path t := Some tb']> (view t))
                    | None => abort t
                    end).
Proof.
  intros Ht Ha Hp (p & [-> | [-> | ->]]);
    match goal with
    | |- context [backend_step E verify ?e c] =>
        rewrite (step_open E verify e c t Ht Ha eq_refl)
    end;
    cbn [statement apply_mutation fst]; unfold mutate; rewrite Hp;
    match goal with |- context [match ?o with _ => _ end] => destruct o end;
    reflexivity.
Qed.

Lemma mutation_of_change (json_Decode : string -> Person) (rt : Route) (r : Request)
    (id : Z) (m : Event) :
  mutation_of json_Decode rt r id = Some m ->
  exists p, m = Create p \/ m = Save p \/ m = Delete p.
Proof.
  destruct rt; cbn; intros H; inversion H; eauto.
Qed.

(** X11.  A change and its answer on the backend.  For Create, Update and
    Delete under a tenant naming schema [n], with a parsable id and a
    client that can be written to: when the engine accepts the change, the
    table it produces is what is stored for [n] and what is listed in the
    answer, and no other schema changes; when the engine refuses it (a
    duplicate key, say), the answer is still 200 with an empty list, and
    nothing is stored at all, not even the schema. *)
Theorem change_is_stored_or_dropped_whole (json_Decode : string -> Person) (rt : Route)
    (w : ResponseWriter) (r : Request) (tenant n : string) (c : Conn E)
    (id : Z) (m : Event) :
  Atoi (param r "id") = (id, None) ->
  mutation_of json_Decode rt r id = Some m ->
  ident E tenant = Some n ->
  fault w = None ->
  let x := run B (prepare (route_handler json_Decode rt) w r tenant) c in
  tx (final x) = None
  /\ status <$> outcome x = Some (Some (default 200%Z (status w)))
  /\ match apply_mutation E m (working_table n c) with
     | Some tb' =>
         stored (final x) = <[n := Some tb']> (stored c)
         /\ body <$> outcome x = Some (body w ++ [JSONPeople (select E tb')])
     | None =>
         stored (final x) = stored c
         /\ body <$> outcome x = Some (body w ++ [JSONPeople []])
     end.
Proof.
  intros Hid Hm Hn Hf x. subst x. rewrite run_prepare by reflexivity. cbn zeta.
  rewrite entered_backend, Hn. fold (begun c).
  set (t := migrated n (begun c)). set (c1 := with_tx c (Some t)).
  assert (Ha : aborted t = false) by (unfold t; rewrite migrated_aborted; reflexivity).
  assert (Hpath : path t = n) by apply migrated_path.
  destruct (mutation_run B json_Decode rt w r c1 id m Hid Hm Hf) as (_ & Hb & He & Hfin).
  pose proof (handler_error json_Decode rt B w r c1) as Hst.
  destruct Hst as (_ & Hst & _).
  { intros _. rewrite Hid. reflexivity. }
  cbn zeta in *.
  change (step B m c1) with (backend_step E verify m c1) in Hb, Hfin.
  change (St B) with (Conn E) in *.
  rewrite (step_change_open c1 t (working_table n c) m eq_refl Ha (people_migrated n c)
             (mutation_of_change json_Decode rt r id m Hm)) in Hb, Hfin.
  change (with_tx c1 ?o) with (with_tx c o) in Hb, Hfin.
  unfold final, outcome in *. cbn [fst snd] in *. rewrite He, Hfin.
  destruct (apply_mutation E m (working_table n c)) as [tb' |].
  - set (t' := with_view E t (<[path t := Some tb']> (view t))) in *.
    assert (Hp' : people E t' = Some tb').
    { unfold people, t'. cbn. rewrite lookup_insert_eq. reflexivity. }
    change (step B Find (with_tx c (Some t')))
      with (backend_step E verify Find (with_tx c (Some t'))) in *.
    rewrite (step_Find_open (with_tx c (Some t')) t' tb' eq_refl Ha Hp') in *.
    cbn [fst snd] in *.
    pose proof (finish_backend E verify None (with_tx c (Some t')) t' eq_refl) as Hc.
    unfold final in Hc. change (St B) with (Conn E) in Hc. rewrite Hc. change (aborted t') with (aborted t). rewrite Ha.
    cbn [stored tx]. split; [reflexivity |].
    split; [cbn [fmap option_fmap option_map]; rewrite Hst; reflexivity |].
    split; [| cbn [fmap option_fmap option_map]; rewrite Hb; reflexivity].
    unfold t'. cbn [view with_view]. rewrite Hpath. unfold t.
    rewrite migrated_view. apply insert_insert_eq.
  - change (step B Find (with_tx c (Some (abort t))))
      with (backend_step E verify Find (with_tx c (Some (abort t)))) in *.
    rewrite (step_aborted E verify Find (with_tx c (Some (abort t))) (abort t)
               eq_refl eq_refl eq_refl) in *.
    cbn [fst snd refused] in *.
    pose proof (finish_backend E verify None (with_tx c (Some (abort t))) (abort t) eq_refl)
      as Hc.
    unfold final in Hc. change (St B) with (Conn E) in Hc. rewrite Hc. cbn [aborted abort stored tx with_tx].
    split; [reflexivity |]. split; [cbn [fmap option_fmap option_map]; rewrite Hst; reflexivity |].
    split; [reflexivity | cbn [fmap option_fmap option_map]; rewrite Hb; reflexivity].
Qed.

End BackendRequests.

Lemma listing_creates_the_schema_witness :
  let x := run (backend rows_engine open_verifier)
             (prepare ListPeople (newWriter None) (bearer "acme" "" "") "Acme")
             (idle {[ "other" := Some [{| ID := 1; Name := "Ada" |}] ]} "public") in
  stored (final x)
  = <[ "acme" := Some [] ]> {[ "other" := Some [{| ID := 1; Name := "Ada" |}] ]}
  /\ body <$> outcome x = Some ([] ++ [JSONPeople []])
  /\ tx (final x) = None.
Proof.
  exact (listing_creates_the_schema rows_engine open_verifier (newWriter None)
           (bearer "acme" "" "") "Acme" "acme"
           (idle {[ "other" := Some [{| ID := 1; Name := "Ada" |}] ]} "public")
           eq_refl eq_refl).
Defined.

Lemma change_is_stored_or_dropped_whole_witness :
  let db : gmap string (option (Table rows_engine)) :=
    {[ "acme" := Some [{| ID := 5; Name := "Grace" |}] ]} in
  let x := run (backend rows_engine open_verifier)
             (prepare (route_handler name_decoder POST_person) (newWriter None)
                (bearer "acme" "5" "Ada") "acme")
             (idle db "public") in
  tx (final x) = None
  /\ status <$> outcome x = Some (Some 200%Z)
  /\ stored (final x) = db
  /\ body <$> outcome x = Some ([] ++ [JSONPeople []]).
Proof.
  exact (change_is_stored_or_dropped_whole rows_engine open_verifier name_decoder
           POST_person (newWriter None) (bearer "acme" "5" "Ada") "acme" "acme"
           (idle {[ "acme" := Some [{| ID := 5; Name := "Grace" |}] ]} "public")
           5 (Create {| ID := 5; Name := "Ada" |}) eq_refl eq_refl eq_refl eq_refl).
Defined.

(** ** The id of the path, as a number *)

Lemma digits_spec (s : string) :
  forall acc un, (0 <= acc)%Z -> digits acc s = Some un ->
                 (0 <= un)%Z /\ all_bytes isDigit s = true.
Proof.
  induction s as [| c s IH]; intros acc un Hacc H; cbn in H.
  - inversion H; subst. split; [exact Hacc | reflexivity].
  - destruct (isDigit c) eqn:Hc; [| discriminate]. cbn. rewrite Hc. cbn.
    apply (IH (10 * acc + (Z.of_nat (nat_of_ascii c) - 48))%Z un); [| exact H].
    unfold isDigit in Hc. apply andb_prop in Hc as [Hlo _].
    apply Nat.leb_le in Hlo. lia.
Qed.

(** X12.  The ids a handler accepts.  When [Atoi] returns no error, the
    text is an optional sign followed by at least one byte, all of them
    decimal digits, and the number is a 64-bit [int]; so a path such as
    [/person/5x], [/person/0x10] or an id beyond 2^63 - 1 never reaches a
    database call. *)
Theorem accepted_id_is_a_decimal_int (s : string) (id : Z) :
  Atoi s = (id, None) ->
  (exists sign digits_text,
      s = sign +:+ digits_text
      /\ (sign = "" \/ sign = "+" \/ sign = "-")
      /\ digits_text <> ""
      /\ all_bytes isDigit digits_text = true)
  /\ (- 2 ^ 63 <= id <= 2 ^ 63 - 1)%Z.
Proof.
  unfold Atoi. destruct s as [| c rest]; [discriminate |].
  set (neg := Ascii.eqb c "-").
  destruct (neg || Ascii.eqb c "+") eqn:Hsign.
  - destruct rest as [| d rest']; [discriminate |].
    destruct (digits 0 (String d rest')) as [un |] eqn:Hd; [| discriminate].
    destruct (digits_spec _ 0 un ltac:(lia) Hd) as [Hun Hall].
    intros H. split.
    + exists (String c ""), (String d rest'). split; [reflexivity |].
      split; [| split; [discriminate | exact Hall]].
      apply orb_prop in Hsign as [Hs | Hs]; apply Ascii.eqb_eq in Hs; subst c; auto.
    + destruct neg.
      * destruct (2 ^ 63 <? un)%Z eqn:Hb; [discriminate |].
        apply Z.ltb_ge in Hb. inversion H; subst. lia.
      * destruct (2 ^ 63 <=? un)%Z eqn:Hb; [discriminate |].
        apply Z.leb_gt in Hb. inversion H; subst. lia.
  - destruct (digits 0 (String c rest)) as [un |] eqn:Hd; [| discriminate].
    destruct (digits_spec _ 0 un ltac:(lia) Hd) as [Hun Hall].
    intros H. split.
    + exists "", (String c rest). split; [reflexivity |].
      split; [auto | split; [discriminate | exact Hall]].
    + assert (Hn : neg = false) by (apply orb_false_elim in Hsign as [Hn _]; exact Hn).
      rewrite Hn in H.
      destruct (2 ^ 63 <=? un)%Z eqn:Hb; [discriminate |].
      apply Z.leb_gt in Hb. inversion H; subst. lia.
Qed.

Lemma accepted_id_is_a_decimal_int_witness :
  (exists sign digits_text,
      "-9223372036854775808" = sign +:+ digits_text
      /\ (sign = "" \/ sign = "+" \/ sign = "-")
      /\ digits_text <> ""
      /\ all_bytes isDigit digits_text = true)
  /\ (- 2 ^ 63 <= - 2 ^ 63 <= 2 ^ 63 - 1)%Z.
Proof.
  exact (accepted_id_is_a_decimal_int "-9223372036854775808" (- 2 ^ 63) eq_refl).
Defined.

Example ids_refused :
  (Atoi "5x").2 <> None /\ (Atoi "0x10").2 <> None /\ (Atoi " 5").2 <> None
  /\ (Atoi "9223372036854775808").2 <> None /\ (Atoi "").2 <> None.
Proof. repeat split; discriminate. Qed.

(** ** [loadEnv] *)

(** X13.  [loadEnv] falls back only on a variable that is not set.  A
    variable that is set is returned as it is, the empty string included,
    and nothing is logged; a variable that is not set gives the default
    and exactly one log line naming the variable and the default; setting
    one variable does not change what is loaded for another. *)
Theorem loadEnv_falls_back_only_when_unset (environ : gmap string string)
    (envName other value defaultValue : string) :
  loadEnv (<[envName := value]> environ) envName defaultValue = (value, [])
  /\ loadEnv (delete envName environ) envName defaultValue
     = (defaultValue,
        ["Could not find the env " +:+ envName +:+ ", using it's default value ("
         +:+ defaultValue +:+ ") instead"])
  /\ (other <> envName ->
      loadEnv (<[envName := value]> environ) other defaultValue
      = loadEnv environ other defaultValue)
  /\ ((loadEnv environ envName defaultValue).2 = [] <-> is_Some (environ !! envName)).
Proof.
  unfold loadEnv. repeat split.
  - rewrite lookup_insert_eq. reflexivity.
  - rewrite lookup_delete_eq. reflexivity.
  - intros Hne. rewrite lookup_insert_ne by congruence. reflexivity.
  - destruct (environ !! envName); [eauto | discriminate].
  - intros [v Hv]. rewrite Hv. reflexivity.
Qed.

Lemma loadEnv_falls_back_only_when_unset_witness :
  loadEnv (<["DB_HOST" := ""]> ∅) "DB_HOST" "localhost" = ("", [])
  /\ loadEnv (delete "DB_HOST" ∅) "DB_HOST" "localhost"
     = ("localhost",
        ["Could not find the env DB_HOST, using it's default value (localhost) instead"])
  /\ ("DB_PORT" <> "DB_HOST" ->
      loadEnv (<["DB_HOST" := ""]> ∅) "DB_PORT" "localhost"
      = loadEnv ∅ "DB_PORT" "localhost")
  /\ ((loadEnv ∅ "DB_HOST" "localhost").2 = [] <-> is_Some ((∅ : gmap string string) !! "DB_HOST")).
Proof.
  exact (loadEnv_falls_back_only_when_unset ∅ "DB_HOST" "DB_PORT" "" "localhost").
Defined.
